(** * The interactive portfolio modeler of [app.py]

    A shallow embedding of the "Interactive Portfolio Modeler" page of the
    dashboard (lines 219-267 of [src/app.py]) and of the site filter
    [filter_df_by_site] (lines 156-159), together with the properties the
    specification states about them.

    pandas frames are objects: [df.copy()] allocates a new one and
    [df.loc[i, 'Finish'] += d] writes into an existing one.  The embedding
    keeps that: frames live in a heap and are named by references, and the
    script is written in a small state-and-exception monad over that heap.

    The cells of a frame are machine values: ['Finish'] is a
    [datetime64[ns]] cell, an [int64] count of nanoseconds whose smallest
    value is [NaT], and ['Weekly_Cost_k'] is a numpy [int64].  They are
    integers here, with the bounds written out where the code meets them:
    adding a [timedelta] to a finish raises outside the range of a
    timestamp, and the product of line 250 wraps around. *)

From Stdlib Require Import ZArith String List Bool Lia DecimalString.
From stdpp Require Import base list.
Import ListNotations.

Local Open Scope string_scope.
Local Open Scope list_scope.
Local Open Scope Z_scope.

(** ** Data model *)

(** The range of an [int64], and the wrap-around of numpy's [int64]
    arithmetic. *)
Definition int64_min : Z := -9223372036854775808.

Definition int64_max : Z := 9223372036854775807.

Definition wrap64 (z : Z) : Z :=
  (z + 9223372036854775808) mod 18446744073709551616 - 9223372036854775808.

(** [Start] and [Finish] are [datetime64[ns]] cells: nanoseconds since the
    epoch in an [int64].  The smallest [int64] is [NaT], the missing date;
    [Timestamp.min] and [Timestamp.max] bound the others, and
    [Timedelta.min] and [Timedelta.max] the differences. *)
Definition NaT : Z := int64_min.

Definition Timestamp_min : Z := -9223372036854775807.

Definition Timestamp_max : Z := 9223372036854775807.

Definition Timedelta_min : Z := -9223372036854775807.

Definition Timedelta_max : Z := 9223372036854775807.

(** One week in nanoseconds, and the most days a Python [timedelta] holds. *)
Definition week_ns : Z := 7 * 24 * 3600 * 1000000000.

Definition timedelta_max_days : Z := 999999999.

(** One row of the portfolio frame.  The columns are those the page reads:
    ['Task'], ['Site'], ['Start'] and ['Finish'] ([datetime64[ns]] cells),
    ['Weekly_Cost_k'] (an [int64] cell, thousands per week),
    ['Dependencies'] (a task name, or nothing), and ['Status']. *)
Record Row : Type := mkRow {
  Task : string;
  Site : string;
  Start : Z;
  Finish : Z;
  Weekly_Cost_k : Z;
  Dependencies : option string;
  Status : string
}.

(** A frame is the ordered list of its rows, each under its index label.
    [df[mask]] keeps the labels of the rows it selects, so labels are not
    positions. *)
Abbreviation Label := Z (only parsing).
Abbreviation DataFrame := (list (Z * Row)) (only parsing).

Definition columns : list string :=
  ["Task"; "Site"; "Start"; "Finish"; "Weekly_Cost_k"; "Dependencies"; "Status"].

(** [col in df.columns] *)
Definition has_column (col : string) : bool :=
  existsb (String.eqb col) columns.

(** [df.empty] *)
Definition empty (df : DataFrame) : bool :=
  match df with
  | [] => true
  | _ :: _ => false
  end.

(** [df[mask]]: the rows the boolean mask selects, in frame order, with
    their labels. *)
Definition getitem_mask (mask : Row -> bool) (df : DataFrame) : DataFrame :=
  List.filter (fun p => mask (snd p)) df.

(** [df['Task'] == v], [df['Site'] == v] and [df['Dependencies'] == v],
    row by row.  A missing dependency equals no string. *)
Definition Task_eq (v : string) (r : Row) : bool := String.eqb (Task r) v.

Definition Site_eq (v : string) (r : Row) : bool := String.eqb (Site r) v.

Definition Dependencies_eq (v : string) (r : Row) : bool :=
  match Dependencies r with
  | Some d => String.eqb d v
  | None => false
  end.

(** The row with its ['Finish'] cell replaced. *)
Definition set_Finish (f : Z) (r : Row) : Row :=
  {| Task := Task r; Site := Site r; Start := Start r; Finish := f;
     Weekly_Cost_k := Weekly_Cost_k r; Dependencies := Dependencies r;
     Status := Status r |}.

(** Labels are pairwise distinct: the frames of this program come from a
    default [RangeIndex] through boolean-mask selection and [copy]. *)
Definition index_unique (df : DataFrame) : Prop := List.NoDup (map fst df).

(** Modelled from the spec: [utils.get_project_portfolio_data], which
    builds the baseline frame, is not part of the sources; the specification
    describes its result as an ordered collection of task records.
    [pd.DataFrame] puts such records under the default index 0, 1, 2, ... *)
Fixpoint labelled_from (start : nat) (records : list Row) : DataFrame :=
  match records with
  | [] => []
  | r :: rest => (Z.of_nat start, r) :: labelled_from (S start) rest
  end.

Definition from_records (records : list Row) : DataFrame := labelled_from 0 records.

(** Every finish that is a date leaves room for a delay of [weeks]: it is a
    timestamp, and so is the date [weeks] later. *)
Definition finish_headroom (weeks : Z) (df : DataFrame) : Prop :=
  forall p, In p df ->
    Finish (snd p) = NaT \/
    (Timestamp_min <= Finish (snd p) /\
     Finish (snd p) + weeks * 604800000000000 <= Timestamp_max).

(** ** Heap, events and the script monad *)

(** A reference names an object of the heap by its position. *)
Abbreviation ref := nat (only parsing).

(** What the page shows, in script order, and (ghost) the column lookups it
    performs. *)
Inductive Event : Type :=
| st_warning (body : string)
| st_metric (label : string) (value : Z)
| st_error (body : string)
| st_success (body : string)
| plotly_chart (df : DataFrame)
| mask_lookup (column value : string).

Record World : Type := mkWorld {
  heap : list DataFrame;
  log : list Event
}.

(** [IndexError] is [iloc[0]] on an empty frame, [KeyError] is [loc] on a
    label the frame does not have, [OverflowError] is a [timedelta] of too
    many days, [OutOfBoundsTimedelta] a [timedelta] no [Timedelta] holds,
    [OutOfBoundsDatetime] a sum that is no timestamp.  [Dangling] is a
    reference outside the heap (no Python object is ever in that state; it
    keeps [deref] total). *)
Inductive Exn : Type :=
| IndexError | KeyError | Dangling
| OverflowError | OutOfBoundsTimedelta | OutOfBoundsDatetime.

(** [timedelta(weeks=n)], in nanoseconds. *)
Definition timedelta (weeks : Z) : Exn + Z :=
  if Z.abs (7 * weeks) <=? timedelta_max_days
  then inr (weeks * week_ns)
  else inl OverflowError.

(** [cell + delta] for a [datetime64[ns]] cell and a [timedelta] of [delta]
    nanoseconds: [NaT] stays [NaT]; otherwise the [timedelta] is made a
    [Timedelta] and the sum has to be a timestamp. *)
Definition Timestamp_add (cell delta : Z) : Exn + Z :=
  if cell =? NaT then inr NaT
  else if (delta <? Timedelta_min) || (Timedelta_max <? delta)
  then inl OutOfBoundsTimedelta
  else if (cell + delta <? Timestamp_min) || (Timestamp_max <? cell + delta)
  then inl OutOfBoundsDatetime
  else inr (cell + delta).

(** The frame after [df.loc[idx, 'Finish'] += delta]: the cell of every row
    labelled [idx] is moved, or the first sum that fails is raised.  The
    frames of this program have distinct labels, so [loc] reads and writes
    one cell; under a repeated label pandas adds the cells as an array, and
    an overflow there is reported here as that of a single cell. *)
Fixpoint iadd_Finish (idx : Label) (delta : Z) (df : DataFrame) : Exn + DataFrame :=
  match df with
  | [] => inr []
  | p :: rest =>
      if fst p =? idx then
        match Timestamp_add (Finish (snd p)) delta with
        | inl e => inl e
        | inr f =>
            match iadd_Finish idx delta rest with
            | inl e => inl e
            | inr rest' => inr ((fst p, set_Finish f (snd p)) :: rest')
            end
        end
      else
        match iadd_Finish idx delta rest with
        | inl e => inl e
        | inr rest' => inr (p :: rest')
        end
  end.

Inductive Result (A : Type) : Type :=
| Ok (a : A) (w : World)
| Raise (e : Exn).
Arguments Ok {A} a w.
Arguments Raise {A} e.

Definition M (A : Type) : Type := World -> Result A.

Definition ret {A} (a : A) : M A := fun w => Ok a w.

Definition bind {A B} (c : M A) (k : A -> M B) : M B :=
  fun w => match c w with
           | Ok a w' => k a w'
           | Raise e => Raise e
           end.

Definition raise {A} (e : Exn) : M A := fun _ => Raise e.

Notation "'let!' x ':=' c 'in' k" := (bind c (fun x => k))
  (at level 10, x name, c at level 100, k at level 200).
Notation "'do!' c 'in' k" := (bind c (fun _ => k))
  (at level 10, c at level 100, k at level 200).

Definition deref (r : ref) : M DataFrame :=
  fun w => match heap w !! r with
           | Some d => Ok d w
           | None => Raise Dangling
           end.

Definition alloc (d : DataFrame) : M ref :=
  fun w => Ok (length (heap w)) {| heap := heap w ++ [d]; log := log w |}.

(** An in-place write into the object [r]. *)
Definition store (r : ref) (d : DataFrame) : M unit :=
  fun w => match heap w !! r with
           | Some _ => Ok tt {| heap := <[r := d]> (heap w); log := log w |}
           | None => Raise Dangling
           end.

Definition emit (e : Event) : M unit :=
  fun w => Ok tt {| heap := heap w; log := log w ++ [e] |}.

(** [df.copy()] *)
Definition copy (r : ref) : M ref :=
  let! d := deref r in alloc d.

(** [df.iloc[0]]: the first row, with its label as [.name]. *)
Definition iloc0 (df : DataFrame) : M (Z * Row) :=
  match df with
  | [] => raise IndexError
  | p :: _ => ret p
  end.

(** [df.loc[idx, 'Finish'] += timedelta(weeks=weeks)] on the object [r]:
    the cell is read, then the [timedelta] is built, then the sum is taken
    and written back. *)
Definition loc_iadd (r : ref) (idx : Label) (weeks : Z) : M unit :=
  let! d := deref r in
  if existsb (fun p => Z.eqb (fst p) idx) d
  then
    match timedelta weeks with
    | inl e => raise e
    | inr delta =>
        match iadd_Finish idx delta d with
        | inl e => raise e
        | inr d' => store r d'
        end
    end
  else raise KeyError.

(** ** The script *)

(** The sentinel of the site selector: the whole region, no filtering. *)
Definition West_Coast_Overall : string := "West Coast (Overall)".

(** [filter_df_by_site(df)] with the default [site_col='Site'];
    [site_selection] is the module-level value of the sidebar selector.
    The selection [df[...]] is a temporary; the object returned is its
    copy. *)
Definition filter_df_by_site (site_selection : string) (df : ref) : M ref :=
  if negb (String.eqb site_selection West_Coast_Overall) && has_column "Site"
  then
    let! d := deref df in
    do! emit (mask_lookup "Site" site_selection) in
    alloc (getitem_mask (Site_eq site_selection) d)
  else copy df.

(** Python truthiness of [selected_task]: [None] and [''] are false. *)
Definition truthy (selected_task : option string) : bool :=
  match selected_task with
  | Some s => negb (String.eqb s "")
  | None => false
  end.

(** The name under [selected_task]; read only where it is truthy. *)
Definition task_name (selected_task : option string) : string :=
  match selected_task with
  | Some s => s
  | None => ""
  end.

(** The f-string of line 254. *)
Definition dependency_alert (selected_task impacted_task_name : string) : string :=
  ("🚨 **Dependency Alert:** Delaying '" ++ selected_task ++
   "' will cause a cascading delay to **'" ++ impacted_task_name ++ "'**.")%string.

(** The condition of line 244. *)
Definition guard (selected_task : option string) (delay_weeks : Z)
    (gantt : DataFrame) : bool :=
  (0 <? delay_weeks) && truthy selected_task && negb (empty gantt).

(** Lines 240-254: copy the stored frame, then shift, price and look for a
    dependent.  Returns [gantt_df], [impact_text] and [cost_impact].  The
    weekly cost is a numpy [int64], so is its product with the delay. *)
Definition simulate (edited_portfolio : ref) (selected_task : option string)
    (delay_weeks : Z) : M (ref * string * Z) :=
  let! gantt_df := copy edited_portfolio in
  let! g := deref gantt_df in
  if guard selected_task delay_weeks g then
    let t := task_name selected_task in
    do! emit (mask_lookup "Task" t) in
    let task_row_list := getitem_mask (Task_eq t) g in
    if negb (empty task_row_list) then
      let! task_row := iloc0 task_row_list in
      let task_idx := fst task_row in
      do! loc_iadd gantt_df task_idx delay_weeks in
      let cost_impact := wrap64 (delay_weeks * Weekly_Cost_k (snd task_row)) in
      let! g' := deref gantt_df in
      do! emit (mask_lookup "Dependencies" t) in
      let dependency_impacted := getitem_mask (Dependencies_eq t) g' in
      if negb (empty dependency_impacted) then
        let! dep_row := iloc0 dependency_impacted in
        let impacted_task_name := Task (snd dep_row) in
        ret (gantt_df, dependency_alert t impacted_task_name, cost_impact)
      else ret (gantt_df, "", cost_impact)
    else ret (gantt_df, "", 0)
  else ret (gantt_df, "", 0).

(** [df['Task']], the options of the task selector. *)
Definition Task_column (df : DataFrame) : list string :=
  map (fun p => Task (snd p)) df.

(** What the three widgets of the page return on one run of the script:
    [st.button('Reset Simulation')], [st.selectbox("Select Project to
    Delay:", ...)] and [st.slider("Delay (Weeks):", 0, 12, 0)]. *)
Record Widgets : Type := mkWidgets {
  Reset_Simulation : bool;
  Select_Project_to_Delay : string;
  Delay_Weeks : Z
}.

(** The selector's contract: it returns one of its options. *)
Definition selectable (options : list string) (v : string) : Prop := In v options.


Definition no_conflicts : string := "✅ No direct dependency conflicts detected.".

Definition no_portfolio_data : string := "No portfolio data for selected site.".

(** The assignment of line 226 on its own: a copy of the loaded frame. *)
Definition reset (portfolio_df : ref) : M ref := copy portfolio_df.


(** Lines 231-237: the controls, or the warning when there is nothing to
    select from. *)
Definition simulation_controls (ed : DataFrame) (ui : Widgets)
    : M (option string * Z) :=
  if negb (empty ed)
  then ret (Some (Select_Project_to_Delay ui), Delay_Weeks ui)
  else do! emit (st_warning no_portfolio_data) in ret (None, 0).

(** Lines 260-263. *)
Definition show_impact (impact_text : string) : M unit :=
  if negb (String.eqb impact_text "")
  then emit (st_error impact_text)
  else emit (st_success no_conflicts).

(** Lines 228-267: controls, simulation, impact column and chart, on the
    session's working copy.  Headers and captions are constant text and are
    left out. *)
Definition modeler_body (edited : ref) (ui : Widgets) : M unit :=
  let! ed := deref edited in
  let! controls := simulation_controls ed ui in
  let selected_task := fst controls in
  let delay_weeks := snd controls in
  let! sim := simulate edited selected_task delay_weeks in
  let gantt_df := fst (fst sim) in
  let impact_text := snd (fst sim) in
  let cost_impact := snd sim in
  do! emit (st_metric "Calculated Budget Impact" cost_impact) in
  do! show_impact impact_text in
  let! chart := deref gantt_df in
  emit (plotly_chart chart).



(** ** Reading results *)

(** The frame a load returns, if it returns. *)
Definition loaded (site_selection : string) (df : ref) (w : World)
    : option DataFrame :=
  match filter_df_by_site site_selection df w with
  | Ok r w' => heap w' !! r
  | Raise _ => None
  end.


(** The banner text lines 252-254 leave for a given [dependency_impacted]:
    the alert on its first row, or nothing. *)
Definition alert_for (t : string) (dependency_impacted : DataFrame) : string :=
  match dependency_impacted with
  | [] => ""
  | dep_row :: _ => dependency_alert t (Task (snd dep_row))
  end.

(** The banner lines 260-263 show for a given [impact_text]. *)
Definition impact_banner (impact_text : string) : Event :=
  if negb (String.eqb impact_text "")
  then st_error impact_text
  else st_success no_conflicts.

(** [needle] occurs in [text]. *)
Definition names (text needle : string) : Prop :=
  exists before after, text = (before ++ needle ++ after)%string.

(** Is this event a lookup in some column? *)
Definition is_lookup (ev : Event) : bool :=
  match ev with
  | mask_lookup _ _ => true
  | _ => false
  end.

(** ** Sample portfolios *)

(** Task A (10 a week, finishing at day 0) and task B, which depends on it. *)
Definition project_A : Row := mkRow "A" "San Diego" 0 0 10 None "On Track".

Definition project_B : Row := mkRow "B" "Seattle" 0 week_ns 5 (Some "A") "At Risk".

Definition project_C : Row := mkRow "C" "Seattle" 0 week_ns 8 (Some "A") "On Track".

Definition portfolio_AB : DataFrame := [(0, project_A); (1, project_B)].

Definition portfolio_ABC : DataFrame :=
  [(0, project_A); (1, project_B); (2, project_C)].

(** A task whose name is the empty string, and one that depends on it. *)
Definition project_unnamed : Row := mkRow "" "San Diego" 0 0 10 None "On Track".

Definition project_after_unnamed : Row :=
  mkRow "B" "Seattle" 0 week_ns 5 (Some "") "On Track".

Definition portfolio_unnamed : DataFrame :=
  [(0, project_unnamed); (1, project_after_unnamed)].

(** Two rows under the same name. *)
Definition project_A_again : Row := mkRow "A" "Seattle" 0 week_ns 7 None "At Risk".

Definition portfolio_twins : DataFrame := [(0, project_A); (1, project_A_again)].

(** Task A finishing at [Timestamp.max], with B depending on it; a task
    whose weekly cost is 2^62; a row whose site is the sentinel itself,
    after task A. *)
Definition project_A_late : Row :=
  mkRow "A" "San Diego" 0 9223372036854775807 10 None "On Track".

Definition portfolio_late : DataFrame := [(0, project_A_late); (1, project_B)].

Definition project_A_costly : Row :=
  mkRow "A" "San Diego" 0 0 4611686018427387904 None "On Track".

Definition portfolio_costly : DataFrame := [(0, project_A_costly); (1, project_B)].

Definition project_W : Row :=
  mkRow "W" "West Coast (Overall)" 0 0 4 None "On Track".

Definition portfolio_W : DataFrame := [(0, project_A); (1, project_W)].

(** A world whose only object is the given frame, at reference 0. *)
Definition world_of (df : DataFrame) : World := {| heap := [df]; log := [] |}.

(** ** The home cockpit: portfolio health *)

(** [str(n)] of a Python int, as an f-string prints it. *)
Definition str (n : Z) : string := NilZero.string_of_int (Z.to_int n).

(** [df.shape[0]] *)
Definition shape0 (df : DataFrame) : Z := Z.of_nat (length df).

(** [df['Status'] == v], row by row. *)
Definition Status_eq (v : string) (r : Row) : bool := String.eqb (Status r) v.

(** Line 184. *)
Definition at_risk_count (portfolio_df_filtered : DataFrame) : Z :=
  shape0 (getitem_mask (Status_eq "At Risk") portfolio_df_filtered).

(** Line 185. *)
Definition total_count (portfolio_df_filtered : DataFrame) : Z :=
  if 0 <? shape0 portfolio_df_filtered then shape0 portfolio_df_filtered else 1.

(** The arguments of one [st.metric] call; the help text is constant and
    left out. *)
Record Metric : Type := mkMetric {
  metric_label : string;
  metric_value : string;
  metric_delta : string;
  metric_delta_color : string
}.

(** Lines 170 and 184-192: the "Portfolio Health" indicator of the home
    cockpit. *)
Definition portfolio_health (site_selection : string) (portfolio_data : ref)
    : M Metric :=
  let! portfolio_df_filtered := filter_df_by_site site_selection portfolio_data in
  let! f := deref portfolio_df_filtered in
  let at_risk := at_risk_count f in
  let total := total_count f in
  ret {| metric_label := "📈 Portfolio Health";
         metric_value := (str (total - at_risk) ++ " / " ++ str total ++ " Projects")%string;
         metric_delta := if 0 <? at_risk
                         then ("-" ++ str at_risk ++ " At Risk")%string
                         else "All On Track";
         metric_delta_color := if 0 <? at_risk then "inverse" else "normal" |}.

(** ** The action center of the sidebar *)

(** One dict of [st.session_state.action_items], with the keys the sidebar
    reads: ['id'], ['type'], ['description'] and ['status']. *)
Record ActionItem : Type := mkItem {
  item_id : string;
  item_type : string;
  item_description : string;
  item_status : string
}.

(** [item['status'] = v] *)
Definition set_status (v : string) (item : ActionItem) : ActionItem :=
  {| item_id := item_id item; item_type := item_type item;
     item_description := item_description item; item_status := v |}.

(** What the sidebar block shows, in script order. *)
Inductive SidebarEvent : Type :=
| sb_header (body : string)
| sb_expander (title : string)
| sb_write (body : string)
| sb_success (body : string)
| sb_warning (body : string).

(** [st.rerun()] stops the script where it is called. *)
Inductive Flow : Type := Completed | Rerun.

(** The list comprehension of line 123.  [pending_items] holds the very
    dicts of [action_items], so an item is named by its position there. *)
Fixpoint pending_from (i : nat) (items : list ActionItem) : list nat :=
  match items with
  | [] => []
  | item :: rest =>
      if String.eqb (item_status item) "Pending"
      then i :: pending_from (S i) rest
      else pending_from (S i) rest
  end.

Definition pending_items (action_items : list ActionItem) : list nat :=
  pending_from 0 action_items.

(** Lines 128-139: the loop over the pending items.  [clicked key] is what
    the button under that key returns on this run.  Streamlit refuses a
    second widget under a key the run has used already; the loop is that of
    a run in which no key repeats, as when the ids of the pending items are
    pairwise distinct. *)
Fixpoint review_pending (clicked : string -> bool) (pending : list nat)
    (action_items : list ActionItem) (shown : list SidebarEvent)
    : list ActionItem * list SidebarEvent * Flow :=
  match pending with
  | [] => (action_items, shown, Completed)
  | i :: rest =>
      match action_items !! i with
      | None => review_pending clicked rest action_items shown
      | Some item =>
          let shown1 :=
            shown ++ [sb_expander ("📌 " ++ item_type item ++ ": " ++ item_id item)%string;
                      sb_write (item_description item)] in
          if clicked ("app_" ++ item_id item)%string then
            (<[i := set_status "Approved" item]> action_items,
             shown1 ++ [sb_success ("Approved: " ++ item_id item)%string],
             Rerun)
          else if clicked ("rej_" ++ item_id item)%string then
            (<[i := set_status "Rejected" item]> action_items,
             shown1 ++ [sb_warning ("Rejected: " ++ item_id item)%string],
             Rerun)
          else review_pending clicked rest action_items shown1
      end
  end.

(** [len(pending_items)] in the header. *)
Definition pending_count (action_items : list ActionItem) : nat :=
  length (pending_items action_items).

(** Lines 123-139. *)
Definition action_center (clicked : string -> bool) (action_items : list ActionItem)
    : list ActionItem * list SidebarEvent * Flow :=
  let pending := pending_items action_items in
  let header :=
    sb_header ("Action Center (" ++ str (Z.of_nat (length pending)) ++ ")")%string in
  match pending with
  | [] => (action_items, [header; sb_success "No pending approvals."], Completed)
  | _ :: _ => review_pending clicked pending action_items [header]
  end.


(** ** The resource allocation heatmap *)

(** The two columns of [team_perf_df] the heatmap filter reads. *)
Record TeamRow : Type := mkTeamRow {
  team_Site : string;
  Team_Member : string
}.

(** [resource_allocation_df]: one row of numbers per index label (a team
    member), under the month columns. *)
Record Allocation : Type := mkAllocation {
  alloc_columns : list string;
  alloc_rows : list (string * list Z)
}.

(** [pd.DataFrame()] *)
Definition DataFrame_empty : Allocation :=
  {| alloc_columns := []; alloc_rows := [] |}.

(** [df.empty]: no row or no column. *)
Definition alloc_empty (a : Allocation) : bool :=
  match alloc_rows a, alloc_columns a with
  | _ :: _, _ :: _ => false
  | _, _ => true
  end.

(** [series.unique()]: the values in order of first appearance. *)
Fixpoint Series_unique (values : list string) : list string :=
  match values with
  | [] => []
  | v :: rest => v :: List.filter (fun x => negb (String.eqb x v)) (Series_unique rest)
  end.

(** [member in df.index] *)
Definition in_index (member : string) (a : Allocation) : bool :=
  existsb (fun row => String.eqb (fst row) member) (alloc_rows a).

(** The rows [df.loc[labels]] collects: for each label in turn, the rows
    under it; [None] is the [KeyError] of a label the index does not have. *)
Fixpoint loc_rows (labels : list string) (rows : list (string * list Z))
    : option (list (string * list Z)) :=
  match labels with
  | [] => Some []
  | l :: rest =>
      match List.filter (fun row => String.eqb (fst row) l) rows with
      | [] => None
      | found =>
          match loc_rows rest rows with
          | Some more => Some (found ++ more)
          | None => None
          end
      end
  end.

(** [df.loc[labels]] *)
Definition loc_labels (labels : list string) (a : Allocation) : option Allocation :=
  match loc_rows labels (alloc_rows a) with
  | Some rows => Some {| alloc_columns := alloc_columns a; alloc_rows := rows |}
  | None => None
  end.

(** Lines 436-446: the allocation rows of the selected site's members. *)
Definition site_allocation (site_selection : string) (team_perf_df : list TeamRow)
    (resource_allocation_df : Allocation) : option Allocation :=
  if negb (String.eqb site_selection West_Coast_Overall) then
    let site_members :=
      Series_unique
        (map Team_Member
           (List.filter (fun t => String.eqb (team_Site t) site_selection) team_perf_df)) in
    let members_in_allocation :=
      List.filter (fun member => in_index member resource_allocation_df) site_members in
    match members_in_allocation with
    | _ :: _ => loc_labels members_in_allocation resource_allocation_df
    | [] => Some DataFrame_empty
    end
  else Some resource_allocation_df.

(** Lines 448-453: the heatmap, or the warning when there is nothing to
    draw. *)
Inductive HeatmapView : Type :=
| heatmap (z : list (list Z)) (x : list string) (y : list string)
| no_allocation_warning (body : string).

Definition allocation_view (site_selection : string) (a : Allocation) : HeatmapView :=
  if negb (alloc_empty a)
  then heatmap (map snd (alloc_rows a)) (alloc_columns a) (map fst (alloc_rows a))
  else no_allocation_warning
         ("No resource allocation data available for members at the " ++
          site_selection ++ " site.")%string.

(** ** Reading the chart *)


(** A row and what [loc] may leave under it: the same label and the same
    cells but ['Finish']. *)
Definition same_but_Finish (p p' : Z * Row) : Prop :=
  fst p' = fst p /\
  Task (snd p') = Task (snd p) /\ Site (snd p') = Site (snd p) /\
  Start (snd p') = Start (snd p) /\
  Weekly_Cost_k (snd p') = Weekly_Cost_k (snd p) /\
  Dependencies (snd p') = Dependencies (snd p) /\
  Status (snd p') = Status (snd p).

(** A row and what the simulation may leave under it: the same label, the
    same cells but ['Finish'], and a finish that is not earlier. *)
Definition row_delayed (p p' : Z * Row) : Prop :=
  fst p' = fst p /\
  Task (snd p') = Task (snd p) /\ Site (snd p') = Site (snd p) /\
  Start (snd p') = Start (snd p) /\
  Weekly_Cost_k (snd p') = Weekly_Cost_k (snd p) /\
  Dependencies (snd p') = Dependencies (snd p) /\
  Status (snd p') = Status (snd p) /\
  Finish (snd p) <= Finish (snd p').


(** ** Proof automation *)

(** [finish_headroom] of a frame written out row by row. *)
Ltac headroom :=
  let p := fresh "p" in
  let Hp := fresh "Hp" in
  intros p Hp; simpl in Hp;
  repeat (destruct Hp as [<-|Hp]); [..|contradiction];
  right; vm_compute; split; discriminate.

(** ** The monad's primitives *)

Section Primitives.

Variable w : World.

Lemma deref_ok (r : ref) (d : DataFrame) :
  heap w !! r = Some d -> deref r w = Ok d w.
Proof. intros H. unfold deref. now rewrite H. Qed.

Lemma copy_ok (r : ref) (d : DataFrame) :
  heap w !! r = Some d ->
  copy r w = Ok (length (heap w)) {| heap := heap w ++ [d]; log := log w |}.
Proof. intros H. unfold copy, bind. now rewrite (deref_ok r d H). Qed.

Lemma lookup_fresh (d : DataFrame) :
  (heap w ++ [d]) !! length (heap w) = Some d.
Proof. rewrite lookup_app_r by lia. now rewrite Nat.sub_diag. Qed.

Lemma lookup_kept (r : ref) (d d' : DataFrame) :
  heap w !! r = Some d -> (heap w ++ [d']) !! r = Some d.
Proof. intros H. now apply lookup_app_l_Some. Qed.

Lemma insert_fresh (d d' : DataFrame) :
  <[length (heap w) := d']> (heap w ++ [d]) = heap w ++ [d'].
Proof.
  rewrite insert_app_r_alt by lia. now rewrite Nat.sub_diag.
Qed.

Lemma valid_ref_lt (r : ref) (d : DataFrame) :
  heap w !! r = Some d -> (r < length (heap w))%nat.
Proof. intros H. apply lookup_lt_Some in H. exact H. Qed.

End Primitives.

(** ** Machine arithmetic *)

Section Cells.

Lemma wrap64_range (z : Z) : int64_min <= wrap64 z <= int64_max.
Proof.
  unfold wrap64, int64_min, int64_max.
  pose proof (Z.mod_pos_bound (z + 9223372036854775808) 18446744073709551616).
  lia.
Qed.

Lemma wrap64_fits (z : Z) : int64_min <= z <= int64_max -> wrap64 z = z.
Proof.
  unfold wrap64, int64_min, int64_max. intros H.
  rewrite Z.mod_small by lia. lia.
Qed.

Lemma wrap64_congruent (z : Z) :
  exists k, wrap64 z = z + k * 18446744073709551616.
Proof.
  exists (- ((z + 9223372036854775808) / 18446744073709551616)).
  unfold wrap64.
  pose proof (Z.div_mod (z + 9223372036854775808) 18446744073709551616).
  lia.
Qed.

Lemma timedelta_ok (weeks : Z) :
  Z.abs (7 * weeks) <= 999999999 -> timedelta weeks = inr (weeks * 604800000000000).
Proof.
  intros H. unfold timedelta, timedelta_max_days.
  destruct (Z.leb_spec (Z.abs (7 * weeks)) 999999999); [reflexivity|lia].
Qed.

Lemma timedelta_too_long (weeks : Z) :
  999999999 < Z.abs (7 * weeks) -> timedelta weeks = inl OverflowError.
Proof.
  intros H. unfold timedelta, timedelta_max_days.
  destruct (Z.leb_spec (Z.abs (7 * weeks)) 999999999); [lia|reflexivity].
Qed.

Lemma timedelta_slider (weeks : Z) :
  0 <= weeks <= 12 -> timedelta weeks = inr (weeks * 604800000000000).
Proof. intros H. apply timedelta_ok. lia. Qed.

Lemma timedelta_cases (weeks : Z) :
  timedelta weeks = inr (weeks * 604800000000000) \/
  timedelta weeks = inl OverflowError.
Proof.
  unfold timedelta. destruct (_ <=? _); [left|right]; reflexivity.
Qed.

Lemma Timestamp_add_NaT (delta : Z) : Timestamp_add NaT delta = inr NaT.
Proof. reflexivity. Qed.

Lemma Timestamp_add_ok (cell delta : Z) :
  Timestamp_min <= cell -> 0 <= delta <= Timedelta_max ->
  cell + delta <= Timestamp_max ->
  Timestamp_add cell delta = inr (cell + delta).
Proof.
  unfold Timestamp_add, NaT, int64_min, Timestamp_min, Timestamp_max,
    Timedelta_min, Timedelta_max.
  intros Hc Hd Hs.
  destruct (Z.eqb_spec cell (-9223372036854775808)); [lia|].
  destruct (Z.ltb_spec delta (-9223372036854775807)); [lia|].
  destruct (Z.ltb_spec 9223372036854775807 delta); [lia|].
  destruct (Z.ltb_spec (cell + delta) (-9223372036854775807)); [lia|].
  destruct (Z.ltb_spec 9223372036854775807 (cell + delta)); [lia|].
  reflexivity.
Qed.

Lemma Timestamp_add_late (cell delta : Z) :
  Timestamp_min <= cell -> 0 <= delta <= Timedelta_max ->
  Timestamp_max < cell + delta ->
  Timestamp_add cell delta = inl OutOfBoundsDatetime.
Proof.
  unfold Timestamp_add, NaT, int64_min, Timestamp_min, Timestamp_max,
    Timedelta_min, Timedelta_max.
  intros Hc Hd Hs.
  destruct (Z.eqb_spec cell (-9223372036854775808)); [lia|].
  destruct (Z.ltb_spec delta (-9223372036854775807)); [lia|].
  destruct (Z.ltb_spec 9223372036854775807 delta); [lia|].
  destruct (Z.ltb_spec (cell + delta) (-9223372036854775807)); [lia|].
  destruct (Z.ltb_spec 9223372036854775807 (cell + delta)); [|lia].
  reflexivity.
Qed.

(** What a sum that succeeds returns, and what one that fails raises. *)
Lemma Timestamp_add_inr (cell delta f : Z) :
  Timestamp_add cell delta = inr f ->
  (cell = NaT /\ f = NaT) \/ (cell <> NaT /\ f = cell + delta).
Proof.
  unfold Timestamp_add. destruct (Z.eqb_spec cell NaT) as [->|Hc].
  - intros [= <-]. now left.
  - destruct (_ || _); [discriminate|]. destruct (_ || _); [discriminate|].
    intros [= <-]. now right.
Qed.

Lemma Timestamp_add_inl (cell delta : Z) (e : Exn) :
  Timestamp_add cell delta = inl e ->
  e = OutOfBoundsTimedelta \/ e = OutOfBoundsDatetime.
Proof.
  unfold Timestamp_add. destruct (cell =? NaT); [discriminate|].
  destruct (_ || _); [intros [= <-]; now left|].
  destruct (_ || _); [intros [= <-]; now right|discriminate].
Qed.

End Cells.

(** ** Frames *)

Section Frames.

Implicit Types (df pre post : DataFrame) (mask : Row -> bool).

Lemma getitem_mask_app mask pre post :
  getitem_mask mask (pre ++ post) = getitem_mask mask pre ++ getitem_mask mask post.
Proof. apply List.filter_app. Qed.

Lemma getitem_mask_In mask df (p : Z * Row) :
  In p (getitem_mask mask df) <-> In p df /\ mask (snd p) = true.
Proof. apply List.filter_In. Qed.

Lemma getitem_mask_nil mask df :
  getitem_mask mask df = [] <-> (forall p, In p df -> mask (snd p) = false).
Proof.
  induction df as [|q df IH]; simpl.
  - split; [intros _ p [] | reflexivity].
  - destruct (mask (snd q)) eqn:E.
    + split; [discriminate|]. intros H. specialize (H q (or_introl eq_refl)). congruence.
    + rewrite IH. split.
      * intros H p [<-|Hp]; auto.
      * intros H p Hp. apply H. now right.
Qed.

(** The first selected row splits the frame: nothing before it is selected. *)
Lemma getitem_mask_first mask df (p : Z * Row) (rest : DataFrame) :
  getitem_mask mask df = p :: rest ->
  exists pre post,
    df = pre ++ p :: post /\ getitem_mask mask pre = [] /\
    getitem_mask mask post = rest /\ mask (snd p) = true.
Proof.
  induction df as [|q df IH]; simpl; [discriminate|].
  destruct (mask (snd q)) eqn:E.
  - intros [= -> <-]. now exists [], df.
  - intros H. destruct (IH H) as (pre & post & -> & Hpre & Hpost & Hp).
    exists (q :: pre), post. simpl. rewrite E. auto.
Qed.

Lemma iadd_Finish_absent idx delta df :
  ~ In idx (map fst df) -> iadd_Finish idx delta df = inr df.
Proof.
  induction df as [|[j r] df IH]; simpl; [reflexivity|].
  intros H. destruct (Z.eqb_spec j idx) as [->|_].
  - exfalso. apply H. now left.
  - rewrite IH; [reflexivity|]. intros Hin. apply H. now right.
Qed.

Lemma iadd_Finish_app idx delta pre post (pre' post' : DataFrame) :
  iadd_Finish idx delta pre = inr pre' ->
  iadd_Finish idx delta post = inr post' ->
  iadd_Finish idx delta (pre ++ post) = inr (pre' ++ post').
Proof.
  revert pre'. induction pre as [|[j r] pre IH]; simpl; intros pre' Hpre Hpost.
  - now injection Hpre as <-.
  - destruct (j =? idx).
    + destruct (Timestamp_add (Finish r) delta) as [e|f]; [discriminate|].
      destruct (iadd_Finish idx delta pre) as [e|p'] eqn:E; [discriminate|].
      injection Hpre as <-. now rewrite (IH p' eq_refl Hpost).
    + destruct (iadd_Finish idx delta pre) as [e|p'] eqn:E; [discriminate|].
      injection Hpre as <-. now rewrite (IH p' eq_refl Hpost).
Qed.

(** With distinct labels [loc] reads and writes one cell of one row. *)
Lemma iadd_Finish_unique idx delta pre post (r : Row) (f : Z) :
  index_unique (pre ++ (idx, r) :: post) ->
  Timestamp_add (Finish r) delta = inr f ->
  iadd_Finish idx delta (pre ++ (idx, r) :: post) =
  inr (pre ++ (idx, set_Finish f r) :: post).
Proof.
  unfold index_unique. rewrite List.map_app. simpl. intros H Hf.
  apply List.NoDup_remove_2 in H.
  apply iadd_Finish_app.
  - apply iadd_Finish_absent. intros Hin. apply H. apply List.in_or_app. auto.
  - simpl. rewrite Z.eqb_refl, Hf.
    rewrite iadd_Finish_absent; [reflexivity|].
    intros Hin. apply H. apply List.in_or_app. auto.
Qed.

(** The first row under the label whose sum fails fails the assignment. *)
Lemma iadd_Finish_raises idx delta pre post (r : Row) (e : Exn) :
  ~ In idx (map fst pre) ->
  Timestamp_add (Finish r) delta = inl e ->
  iadd_Finish idx delta (pre ++ (idx, r) :: post) = inl e.
Proof.
  intros Hpre Hf. induction pre as [|[j r0] pre IH]; simpl.
  - now rewrite Z.eqb_refl, Hf.
  - destruct (Z.eqb_spec j idx) as [->|_].
    + exfalso. apply Hpre. now left.
    + rewrite IH; [reflexivity|]. intros Hin. apply Hpre. now right.
Qed.

Lemma iadd_Finish_inl idx delta df (e : Exn) :
  iadd_Finish idx delta df = inl e ->
  e = OutOfBoundsTimedelta \/ e = OutOfBoundsDatetime.
Proof.
  induction df as [|[j r] df IH]; simpl; [discriminate|].
  destruct (j =? idx).
  - destruct (Timestamp_add (Finish r) delta) as [e'|f] eqn:E.
    + intros [= <-]. now apply Timestamp_add_inl in E.
    + destruct (iadd_Finish idx delta df) as [e'|d']; [|discriminate].
      intros [= <-]. now apply IH.
  - destruct (iadd_Finish idx delta df) as [e'|d']; [|discriminate].
    intros [= <-]. now apply IH.
Qed.

(** Row by row: the assignment keeps labels and every cell but ['Finish'],
    and a finish either stays or is later by [delta]. *)
Lemma iadd_Finish_rows idx delta df (df' : DataFrame) :
  iadd_Finish idx delta df = inr df' ->
  Forall2 (fun p p' =>
             same_but_Finish p p' /\
             (Finish (snd p') = Finish (snd p) \/
              Finish (snd p') = Finish (snd p) + delta)) df df'.
Proof.
  revert df'. induction df as [|[j r] df IH]; simpl; intros df'.
  - intros [= <-]. constructor.
  - destruct (j =? idx).
    + destruct (Timestamp_add (Finish r) delta) as [e'|f] eqn:E; [discriminate|].
      destruct (iadd_Finish idx delta df) as [e'|d']; [discriminate|].
      intros [= <-]. constructor; [|now apply IH].
      split; [now repeat split|]. simpl.
      apply Timestamp_add_inr in E. destruct E as [[-> ->]|[_ ->]]; auto.
    + destruct (iadd_Finish idx delta df) as [e'|d']; [discriminate|].
      intros [= <-]. constructor; [|now apply IH].
      split; [now repeat split|]. now left.
Qed.

(** With room for the delay in every finish, the assignment succeeds. *)
Lemma iadd_Finish_headroom idx (weeks : Z) df :
  0 <= weeks <= 15250 -> finish_headroom weeks df ->
  exists df', iadd_Finish idx (weeks * 604800000000000) df = inr df'.
Proof.
  intros Hw. induction df as [|[j r] df IH]; simpl; intros Hh; [eauto|].
  destruct IH as [d' Hd'].
  { intros p Hp. apply Hh. now right. }
  rewrite Hd'. destruct (j =? idx); [|eauto].
  destruct (Hh (j, r) (or_introl eq_refl)) as [E|[Hlo Hhi]]; simpl in *.
  - rewrite E, Timestamp_add_NaT. eauto.
  - rewrite Timestamp_add_ok by (unfold Timedelta_max; lia). eauto.
Qed.

Lemma finish_headroom_le (weeks weeks' : Z) df :
  weeks <= weeks' -> finish_headroom weeks' df -> finish_headroom weeks df.
Proof.
  intros Hle Hh p Hp. destruct (Hh p Hp) as [E|[Hlo Hhi]]; [now left|].
  right. split; [exact Hlo|lia].
Qed.


Lemma same_but_Finish_index df (df' : DataFrame) :
  Forall2 same_but_Finish df df' -> map fst df' = map fst df.
Proof.
  induction 1 as [|p p' df df' Hp _ IH]; simpl; [reflexivity|].
  destruct Hp as [-> _]. now rewrite IH.
Qed.

Lemma same_but_Finish_Task_column df (df' : DataFrame) :
  Forall2 same_but_Finish df df' -> map (fun p => Task (snd p)) df' = map (fun p => Task (snd p)) df.
Proof.
  induction 1 as [|p p' df df' Hp _ IH]; simpl; [reflexivity|].
  destruct Hp as (_ & -> & _). now rewrite IH.
Qed.

Lemma rows_same_but_Finish (P : Z * Row -> Z * Row -> Prop) df (df' : DataFrame) :
  Forall2 (fun p p' => same_but_Finish p p' /\ P p p') df df' ->
  Forall2 same_but_Finish df df'.
Proof. induction 1; constructor; tauto. Qed.

Lemma iadd_Finish_index idx delta df (df' : DataFrame) :
  iadd_Finish idx delta df = inr df' -> map fst df' = map fst df.
Proof.
  intros H. apply same_but_Finish_index.
  apply iadd_Finish_rows in H. now apply rows_same_but_Finish in H.
Qed.

Lemma label_present idx (r : Row) df :
  In (idx, r) df -> existsb (fun p => fst p =? idx) df = true.
Proof.
  intros H. apply List.existsb_exists. exists (idx, r). split; [exact H|].
  apply Z.eqb_refl.
Qed.

Lemma labelled_from_ge (start : nat) (records : list Row) (i : Z) :
  In i (map fst (labelled_from start records)) -> Z.of_nat start <= i.
Proof.
  revert start. induction records as [|r rest IH]; simpl; intros start; [intros []|].
  intros [<-|H]; [lia|]. apply IH in H. lia.
Qed.

(** The frames of the program have distinct labels: the baseline has, and
    selection and the finish shift keep them. *)
Lemma index_unique_from_records (records : list Row) :
  index_unique (from_records records).
Proof.
  unfold from_records, index_unique. generalize 0%nat as start.
  induction records as [|r rest IH]; simpl; intros start.
  - apply List.NoDup_nil.
  - apply List.NoDup_cons; [|apply IH].
    intros H. apply labelled_from_ge in H. lia.
Qed.

Lemma index_unique_iadd idx delta df (df' : DataFrame) :
  iadd_Finish idx delta df = inr df' -> index_unique df -> index_unique df'.
Proof. unfold index_unique. intros H. now rewrite (iadd_Finish_index _ _ _ _ H). Qed.


End Frames.
(** ** One simulation, path by path *)

(** The dependency scan reads names and dependencies only: it finds the
    same dependent before and after the finish shift. *)
Lemma alert_for_same_but_Finish (t : string) (g g' : DataFrame) :
  Forall2 same_but_Finish g g' ->
  alert_for t (getitem_mask (Dependencies_eq t) g') =
  alert_for t (getitem_mask (Dependencies_eq t) g).
Proof.
  induction 1 as [|p p' g g' Hp _ IH]; [reflexivity|].
  destruct Hp as (_ & HT & _ & _ & _ & HD & _).
  assert (E : Dependencies_eq t (snd p') = Dependencies_eq t (snd p))
    by (unfold Dependencies_eq; now rewrite HD).
  unfold getitem_mask in *. simpl. rewrite E.
  destruct (Dependencies_eq t (snd p)); simpl; [now rewrite HT|exact IH].
Qed.

Lemma alert_for_iloc0 (t : string) (deps : DataFrame) (gantt : ref) (cost : Z) (w : World) :
  (if negb (empty deps)
   then let! dep_row := iloc0 deps in
        ret (gantt, dependency_alert t (Task (snd dep_row)), cost)
   else ret (gantt, "", cost)) w =
  Ok (gantt, alert_for t deps, cost) w.
Proof. now destruct deps. Qed.

Section Simulate.

Variables (w : World) (e : ref) (g : DataFrame).
Hypothesis stored : heap w !! e = Some g.

(** The prefix every path shares: [gantt_df] is a new object equal to
    the stored frame. *)
Lemma simulate_unfold selected_task delay_weeks :
  simulate e selected_task delay_weeks w =
  let w1 := {| heap := heap w ++ [g]; log := log w |} in
  let gantt_df := length (heap w) in
  (if guard selected_task delay_weeks g then
    let t := task_name selected_task in
    do! emit (mask_lookup "Task" t) in
    let task_row_list := getitem_mask (Task_eq t) g in
    if negb (empty task_row_list) then
      let! task_row := iloc0 task_row_list in
      let task_idx := fst task_row in
      do! loc_iadd gantt_df task_idx delay_weeks in
      let cost_impact := wrap64 (delay_weeks * Weekly_Cost_k (snd task_row)) in
      let! g' := deref gantt_df in
      do! emit (mask_lookup "Dependencies" t) in
      let dependency_impacted := getitem_mask (Dependencies_eq t) g' in
      if negb (empty dependency_impacted) then
        let! dep_row := iloc0 dependency_impacted in
        let impacted_task_name := Task (snd dep_row) in
        ret (gantt_df, dependency_alert t impacted_task_name, cost_impact)
      else ret (gantt_df, "", cost_impact)
    else ret (gantt_df, "", 0)
  else ret (gantt_df, "", 0)) w1.
Proof.
  unfold simulate at 1. unfold bind at 1. rewrite (copy_ok w e g stored).
  unfold bind at 1. rewrite (deref_ok _ _ g) by apply lookup_fresh.
  reflexivity.
Qed.

(** Guard false: nothing is looked up, nothing is shifted. *)
Lemma simulate_skipped selected_task delay_weeks :
  guard selected_task delay_weeks g = false ->
  simulate e selected_task delay_weeks w =
  Ok (length (heap w), "", 0) {| heap := heap w ++ [g]; log := log w |}.
Proof. intros H. rewrite simulate_unfold. simpl. now rewrite H. Qed.

(** Guard true, no row under the name: one lookup, nothing shifted. *)
Lemma simulate_no_match selected_task delay_weeks :
  guard selected_task delay_weeks g = true ->
  getitem_mask (Task_eq (task_name selected_task)) g = [] ->
  simulate e selected_task delay_weeks w =
  Ok (length (heap w), "", 0)
     {| heap := heap w ++ [g];
        log := log w ++ [mask_lookup "Task" (task_name selected_task)] |}.
Proof.
  intros H Hn. rewrite simulate_unfold. simpl. rewrite H.
  unfold bind, emit. simpl. now rewrite Hn.
Qed.

(** Guard true and a row under the name: line 249 on the first such row
    decides the run. *)
Lemma simulate_matched selected_task delay_weeks idx (r : Row) (rest : DataFrame) :
  guard selected_task delay_weeks g = true ->
  getitem_mask (Task_eq (task_name selected_task)) g = (idx, r) :: rest ->
  simulate e selected_task delay_weeks w =
  match timedelta delay_weeks with
  | inl ex => Raise ex
  | inr delta =>
      match iadd_Finish idx delta g with
      | inl ex => Raise ex
      | inr g' =>
          Ok (length (heap w),
              alert_for (task_name selected_task)
                (getitem_mask (Dependencies_eq (task_name selected_task)) g),
              wrap64 (delay_weeks * Weekly_Cost_k r))
             {| heap := heap w ++ [g'];
                log := log w ++ [mask_lookup "Task" (task_name selected_task)]
                     ++ [mask_lookup "Dependencies" (task_name selected_task)] |}
      end
  end.
Proof.
  intros H Hm. rewrite simulate_unfold. simpl. rewrite H.
  unfold bind at 1. unfold emit at 1. rewrite Hm. simpl.
  unfold bind at 1. unfold ret at 1. simpl.
  assert (Hin : In (idx, r) g).
  { apply (getitem_mask_In (Task_eq (task_name selected_task))).
    rewrite Hm. now left. }
  unfold bind at 1. unfold loc_iadd, bind at 1. simpl.
  rewrite (deref_ok _ _ g) by (simpl; apply lookup_fresh).
  rewrite (label_present idx r g Hin).
  destruct (timedelta delay_weeks) as [ex|delta]; [reflexivity|].
  destruct (iadd_Finish idx delta g) as [ex|g'] eqn:Hg'; [reflexivity|].
  unfold store. simpl. rewrite lookup_fresh, insert_fresh.
  unfold bind at 1.
  rewrite (deref_ok _ _ g') by (simpl; apply lookup_fresh).
  unfold bind at 1. unfold emit at 1. cbv zeta.
  rewrite alert_for_iloc0. cbn [heap log].
  rewrite <- List.app_assoc.
  apply iadd_Finish_rows in Hg'. apply rows_same_but_Finish in Hg'.
  now rewrite (alert_for_same_but_Finish _ g g' Hg').
Qed.

(** The same, when the delay is a [timedelta] and every sum a timestamp:
    the first row under the name is shifted in [gantt_df] and priced, and
    the dependents of the name are looked up. *)
Lemma simulate_delayed selected_task delay_weeks idx (r : Row) (rest g' : DataFrame) :
  guard selected_task delay_weeks g = true ->
  getitem_mask (Task_eq (task_name selected_task)) g = (idx, r) :: rest ->
  timedelta delay_weeks = inr (delay_weeks * 604800000000000) ->
  iadd_Finish idx (delay_weeks * 604800000000000) g = inr g' ->
  simulate e selected_task delay_weeks w =
  Ok (length (heap w),
      alert_for (task_name selected_task)
        (getitem_mask (Dependencies_eq (task_name selected_task)) g),
      wrap64 (delay_weeks * Weekly_Cost_k r))
     {| heap := heap w ++ [g'];
        log := log w ++ [mask_lookup "Task" (task_name selected_task)]
                     ++ [mask_lookup "Dependencies" (task_name selected_task)] |}.
Proof.
  intros H Hm Htd Hg'.
  rewrite (simulate_matched selected_task delay_weeks idx r rest H Hm).
  now rewrite Htd, Hg'.
Qed.

(** Whatever the inputs, the run completes on a new frame that differs from
    the stored one in finishes at most, or line 249 raises one of its three
    overflow exceptions: [iloc[0]] and [loc] find what they look for. *)
Lemma simulate_cases selected_task delay_weeks :
  (exists text cost w' g',
      simulate e selected_task delay_weeks w = Ok (length (heap w), text, cost) w' /\
      heap w' = heap w ++ [g'] /\
      Forall2 (fun p p' =>
                 same_but_Finish p p' /\
                 (Finish (snd p') = Finish (snd p) \/
                  Finish (snd p') = Finish (snd p) + delay_weeks * 604800000000000))
        g g' /\
      exists evs, log w' = log w ++ evs) \/
  (exists ex,
      simulate e selected_task delay_weeks w = Raise ex /\
      (ex = OverflowError \/ ex = OutOfBoundsTimedelta \/ ex = OutOfBoundsDatetime)).
Proof.
  assert (Hrefl : Forall2 (fun p p' : Z * Row =>
                 same_but_Finish p p' /\
                 (Finish (snd p') = Finish (snd p) \/
                  Finish (snd p') = Finish (snd p) + delay_weeks * 604800000000000))
        g g).
  { clear stored. induction g; constructor; auto. split; [now repeat split|now left]. }
  destruct (guard selected_task delay_weeks g) eqn:Hg.
  - destruct (getitem_mask (Task_eq (task_name selected_task)) g) as [|[idx r] rest] eqn:Hm.
    + left. rewrite (simulate_no_match selected_task delay_weeks Hg Hm).
      eexists _, _, _, g. split; [reflexivity|]. simpl. eauto.
    + rewrite (simulate_matched selected_task delay_weeks idx r rest Hg Hm).
      destruct (timedelta_cases delay_weeks) as [-> | ->]; [|right; eauto].
      destruct (iadd_Finish idx (delay_weeks * 604800000000000) g) as [ex|g'] eqn:Hg'.
      * right. exists ex. split; [reflexivity|].
        apply iadd_Finish_inl in Hg'. tauto.
      * left. eexists _, _, _, g'. split; [reflexivity|]. simpl.
        split; [reflexivity|]. split; [now apply (iadd_Finish_rows idx)|eauto].
  - left. rewrite (simulate_skipped selected_task delay_weeks Hg).
    eexists _, _, _, g. split; [reflexivity|]. simpl. split; [reflexivity|].
    split; [exact Hrefl|]. exists []. now rewrite List.app_nil_r.
Qed.

End Simulate.
(** ** Properties of the simulation *)

Lemma guard_delay (t : string) (d : Z) (g : DataFrame) (p : Z * Row) (rest : DataFrame) :
  0 < d -> t <> "" -> getitem_mask (Task_eq t) g = p :: rest ->
  guard (Some t) d g = true.
Proof.
  intros Hd Ht Hm. unfold guard. simpl.
  destruct (Z.ltb_spec 0 d) as [_|]; [|lia].
  destruct (String.eqb_spec t "") as [|_]; [contradiction|].
  destruct g; [discriminate|reflexivity].
Qed.

Lemma guard_zero (st : option string) (g : DataFrame) : guard st 0 g = false.
Proof. reflexivity. Qed.

Lemma guard_falsy (st : option string) (d : Z) (g : DataFrame) :
  truthy st = false -> guard st d g = false.
Proof. intros H. unfold guard. rewrite H. now rewrite andb_false_r. Qed.

Lemma guard_positive (st : option string) (d : Z) (g : DataFrame) :
  guard st d g = true -> 0 < d.
Proof.
  unfold guard. destruct (Z.ltb_spec 0 d); [auto|discriminate].
Qed.

(** The sample portfolios leave room for the slider's longest delay. *)
Lemma finish_headroom_AB : finish_headroom 12 portfolio_AB.
Proof. headroom. Qed.

Lemma finish_headroom_ABC : finish_headroom 12 portfolio_ABC.
Proof. headroom. Qed.

Lemma finish_headroom_twins : finish_headroom 12 portfolio_twins.
Proof. headroom. Qed.

Lemma index_unique_AB : index_unique portfolio_AB.
Proof.
  unfold index_unique. simpl.
  repeat (apply List.NoDup_cons; [simpl; lia|]). apply List.NoDup_nil.
Qed.

Lemma index_unique_twins : index_unique portfolio_twins.
Proof.
  unfold index_unique. simpl.
  repeat (apply List.NoDup_cons; [simpl; lia|]). apply List.NoDup_nil.
Qed.

(** A run on a working copy with room for the delay completes: line 249
    does not overflow. *)
Lemma simulate_headroom (w : World) (e : ref) (g : DataFrame)
    (st : option string) (d : Z) :
  heap w !! e = Some g -> d <= 12 -> finish_headroom d g ->
  exists text cost w' g',
    simulate e st d w = Ok (length (heap w), text, cost) w' /\
    heap w' = heap w ++ [g'] /\
    Forall2 (fun p p' =>
               same_but_Finish p p' /\
               (Finish (snd p') = Finish (snd p) \/
                Finish (snd p') = Finish (snd p) + d * 604800000000000))
      g g' /\
    exists evs, log w' = log w ++ evs.
Proof.
  intros Hs Hd Hh.
  destruct (simulate_cases w e g Hs st d) as [H|(ex & Hrun & Hex)]; [exact H|].
  exfalso. destruct (guard st d g) eqn:Hg.
  - pose proof (guard_positive st d g Hg) as Hpos.
    destruct (getitem_mask (Task_eq (task_name st)) g) as [|[idx r] rest] eqn:Hm.
    + rewrite (simulate_no_match w e g Hs st d Hg Hm) in Hrun. discriminate.
    + destruct (iadd_Finish_headroom idx d g) as [g' Hg']; [lia|exact Hh|].
      rewrite (simulate_delayed w e g Hs st d idx r rest g' Hg Hm) in Hrun;
        [discriminate|apply timedelta_slider; lia|exact Hg'].
  - rewrite (simulate_skipped w e g Hs st d Hg) in Hrun. discriminate.
Qed.

(** The shift of a run that delays a task, row by row: with distinct
    labels, the first row under the name gets the later finish and nothing
    else changes. *)
Lemma simulate_delayed_unique (w : World) (e : ref) (g : DataFrame)
    (st : option string) (d : Z) idx (r : Row) (rest : DataFrame) :
  heap w !! e = Some g -> index_unique g ->
  guard st d g = true -> d <= 12 ->
  getitem_mask (Task_eq (task_name st)) g = (idx, r) :: rest ->
  Timestamp_min <= Finish r -> Finish r + d * 604800000000000 <= Timestamp_max ->
  exists w' pre post,
    simulate e st d w =
      Ok (length (heap w),
          alert_for (task_name st) (getitem_mask (Dependencies_eq (task_name st)) g),
          wrap64 (d * Weekly_Cost_k r)) w' /\
    g = pre ++ (idx, r) :: post /\
    getitem_mask (Task_eq (task_name st)) pre = [] /\
    heap w' !! length (heap w) =
      Some (pre ++ (idx, set_Finish (Finish r + d * 604800000000000) r) :: post) /\
    heap w' !! e = Some g /\
    log w' = log w ++ [mask_lookup "Task" (task_name st);
                       mask_lookup "Dependencies" (task_name st)].
Proof.
  intros Hs Hu Hg Hd Hm Hlo Hhi.
  pose proof (guard_positive st d g Hg) as Hpos.
  destruct (getitem_mask_first _ _ _ _ Hm) as (pre & post & Hsplit & Hpre & _).
  assert (Hg' : iadd_Finish idx (d * 604800000000000) g =
                inr (pre ++ (idx, set_Finish (Finish r + d * 604800000000000) r) :: post)).
  { subst g. apply iadd_Finish_unique; [exact Hu|].
    apply Timestamp_add_ok; [exact Hlo|unfold Timedelta_max; lia|exact Hhi]. }
  eexists _, pre, post.
  split; [apply (simulate_delayed w e g Hs st d idx r rest
                   (pre ++ (idx, set_Finish (Finish r + d * 604800000000000) r) :: post)
                   Hg Hm);
          [apply timedelta_slider; lia|exact Hg']|].
  split; [exact Hsplit|]. split; [exact Hpre|]. cbn [heap log].
  split; [apply lookup_fresh|]. split; [now apply lookup_kept|reflexivity].
Qed.

(** A matched finish too late for the delay: line 249 raises. *)
Lemma simulate_late_finish (w : World) (e : ref) (g : DataFrame)
    (st : option string) (d : Z) idx (r : Row) (rest : DataFrame) :
  heap w !! e = Some g -> index_unique g ->
  guard st d g = true -> d <= 12 ->
  getitem_mask (Task_eq (task_name st)) g = (idx, r) :: rest ->
  Timestamp_min <= Finish r -> Timestamp_max < Finish r + d * 604800000000000 ->
  simulate e st d w = Raise OutOfBoundsDatetime.
Proof.
  intros Hs Hu Hg Hd Hm Hlo Hhi.
  pose proof (guard_positive st d g Hg) as Hpos.
  destruct (getitem_mask_first _ _ _ _ Hm) as (pre & post & Hsplit & _).
  rewrite (simulate_matched w e g Hs st d idx r rest Hg Hm).
  rewrite timedelta_slider by lia.
  subst g. rewrite (iadd_Finish_raises idx _ pre post r OutOfBoundsDatetime);
    [reflexivity| |].
  - unfold index_unique in Hu. rewrite List.map_app in Hu. simpl in Hu.
    apply List.NoDup_remove_2 in Hu. intros Hin. apply Hu.
    apply List.in_or_app. now left.
  - apply Timestamp_add_late; [exact Hlo|unfold Timedelta_max; lia|exact Hhi].
Qed.

(** C1, as the code has it.  The working copy is stored and every finish
    in it is missing or a timestamp that is still a timestamp after the
    delay.  With a task name that is not the empty string and matches
    exactly one row, and a delay of 1 to 12 weeks, the run completes and
    [cost_impact] is the delay times that row's ['Weekly_Cost_k'] in
    [int64] arithmetic: it is an [int64], it differs from the product by a
    multiple of 2^64, and it is the product exactly when the product is an
    [int64].  With a zero delay, a name that matches no row, or a selection
    that is [None] or the empty string, [cost_impact] is 0 (no condition on
    the finishes).  With distinct labels and a matched finish that is a
    timestamp but no longer one after the delay, the run raises
    [OutOfBoundsDatetime] and there is no [cost_impact]. *)
Theorem cost_impact_linear (w : World) (e : ref) (g : DataFrame) :
  heap w !! e = Some g ->
  (forall t d idx r,
      t <> "" -> getitem_mask (Task_eq t) g = [(idx, r)] -> 1 <= d <= 12 ->
      finish_headroom d g ->
      exists gantt text cost w',
        simulate e (Some t) d w = Ok (gantt, text, cost) w' /\
        -9223372036854775808 <= cost <= 9223372036854775807 /\
        (exists k, cost = d * Weekly_Cost_k r + k * 18446744073709551616) /\
        (-9223372036854775808 <= d * Weekly_Cost_k r <= 9223372036854775807 ->
         cost = d * Weekly_Cost_k r)) /\
  (forall st d,
      d = 0 \/ getitem_mask (Task_eq (task_name st)) g = [] \/ truthy st = false ->
      exists gantt text w', simulate e st d w = Ok (gantt, text, 0) w') /\
  (forall t d idx r,
      t <> "" -> getitem_mask (Task_eq t) g = [(idx, r)] -> 1 <= d <= 12 ->
      index_unique g ->
      -9223372036854775807 <= Finish r ->
      9223372036854775807 < Finish r + d * 604800000000000 ->
      simulate e (Some t) d w = Raise OutOfBoundsDatetime).
Proof.
  intros Hs. split; [|split].
  - intros t d idx r Ht Hm Hd Hh.
    assert (Hg : guard (Some t) d g = true)
      by (apply (guard_delay t d g (idx, r) []); [lia|auto|auto]).
    destruct (iadd_Finish_headroom idx d g) as [g' Hg']; [lia|exact Hh|].
    rewrite (simulate_delayed w e g Hs (Some t) d idx r [] g' Hg Hm);
      [|apply timedelta_slider; lia|exact Hg'].
    eexists _, _, _, _. split; [reflexivity|].
    split; [apply wrap64_range|]. split; [apply wrap64_congruent|].
    apply wrap64_fits.
  - intros st d Hcase.
    destruct (guard st d g) eqn:Hg.
    + destruct Hcase as [-> | [Hn | Hf]].
      * now rewrite guard_zero in Hg.
      * rewrite (simulate_no_match w e g Hs st d Hg Hn). eauto.
      * now rewrite (guard_falsy st d g Hf) in Hg.
    + rewrite (simulate_skipped w e g Hs st d Hg). eauto.
  - intros t d idx r Ht Hm Hd Hu Hlo Hhi.
    assert (Hg : guard (Some t) d g = true)
      by (apply (guard_delay t d g (idx, r) []); [lia|auto|auto]).
    apply (simulate_late_finish w e g (Some t) d idx r [] Hs Hu Hg); auto; lia.
Qed.

Lemma cost_impact_linear_witness :
  (exists gantt text w',
      simulate 0%nat (Some "A") 3 (world_of portfolio_AB) = Ok (gantt, text, 30) w') /\
  (exists gantt text w',
      simulate 0%nat (Some "A") 0 (world_of portfolio_AB) = Ok (gantt, text, 0) w') /\
  simulate 0%nat (Some "A") 1 (world_of portfolio_late) = Raise OutOfBoundsDatetime.
Proof.
  split; [|split].
  - destruct (cost_impact_linear (world_of portfolio_AB) 0%nat portfolio_AB eq_refl)
      as (Hone & _ & _).
    destruct (Hone "A" 3 0 project_A) as (gantt & text & cost & w' & Hrun & _ & _ & Hfit).
    + discriminate.
    + reflexivity.
    + lia.
    + apply (finish_headroom_le 3 12); [lia|exact finish_headroom_AB].
    + exists gantt, text, w'. rewrite Hrun, Hfit; [reflexivity|simpl; lia].
  - destruct (cost_impact_linear (world_of portfolio_AB) 0%nat portfolio_AB eq_refl)
      as (_ & Hzero & _).
    apply (Hzero (Some "A") 0). left. reflexivity.
  - destruct (cost_impact_linear (world_of portfolio_late) 0%nat portfolio_late eq_refl)
      as (_ & _ & Hlate).
    apply (Hlate "A" 1 0 project_A_late).
    + discriminate.
    + reflexivity.
    + lia.
    + unfold index_unique. simpl.
      repeat (apply List.NoDup_cons; [simpl; lia|]). apply List.NoDup_nil.
    + simpl. lia.
    + simpl. lia.
Defined.

(** C1 as stated fails for the task named by the empty string: it matches
    exactly one row and the delay is 3 weeks, yet [cost_impact] is 0 and
    not 3 times the row's weekly cost of 10. *)
Lemma cost_impact_unnamed_task :
  getitem_mask (Task_eq "") portfolio_unnamed = [(0, project_unnamed)] /\
  1 <= 3 <= 12 /\
  simulate 0%nat (Some "") 3 (world_of portfolio_unnamed) =
    Ok (1%nat, "", 0) {| heap := [portfolio_unnamed; portfolio_unnamed]; log := [] |} /\
  ~ (exists gantt text w',
        simulate 0%nat (Some "") 3 (world_of portfolio_unnamed) =
          Ok (gantt, text, 3 * Weekly_Cost_k project_unnamed) w').
Proof.
  split; [reflexivity|]. split; [lia|]. split; [reflexivity|].
  intros (gantt & text & w' & H). vm_compute in H. discriminate.
Qed.

(** It also fails where the product leaves [int64]: a weekly cost of 2^62
    delayed by 2 weeks is priced at -2^63, not at 2^63. *)
Lemma cost_impact_wraps :
  getitem_mask (Task_eq "A") portfolio_costly = [(0, project_A_costly)] /\
  2 * Weekly_Cost_k project_A_costly = 9223372036854775808 /\
  exists text w',
    simulate 0%nat (Some "A") 2 (world_of portfolio_costly) =
      Ok (1%nat, text, -9223372036854775808) w'.
Proof.
  split; [reflexivity|]. split; [reflexivity|].
  eexists _, _. vm_compute. reflexivity.
Qed.

(** C2, as the code has it.  The working copy is stored and its labels are
    distinct; the delay is 1 to 12 weeks; the task name is not the empty
    string and matches exactly one row; that row's finish is a timestamp
    and is still one after the delay.  Then the simulator sets that row's
    finish to the original finish plus the delay (604800000000000
    nanoseconds a week) in [gantt_df], a new object copied from the
    session's working copy for this run; the session's stored working copy
    is a different object and still holds the original frame after the
    invocation. *)
Theorem shift_lands_on_copy (w : World) (e : ref) (g : DataFrame)
    (t : string) (d : Z) idx (r : Row) :
  heap w !! e = Some g -> index_unique g -> 1 <= d <= 12 -> t <> "" ->
  getitem_mask (Task_eq t) g = [(idx, r)] ->
  -9223372036854775807 <= Finish r ->
  Finish r + d * 604800000000000 <= 9223372036854775807 ->
  exists gantt text cost w' pre post,
    simulate e (Some t) d w = Ok (gantt, text, cost) w' /\
    g = pre ++ (idx, r) :: post /\
    heap w' !! gantt =
      Some (pre ++ (idx, set_Finish (Finish r + d * 604800000000000) r) :: post) /\
    heap w !! gantt = None /\ gantt <> e /\
    heap w' !! e = Some g.
Proof.
  intros Hs Hu Hd Ht Hm Hlo Hhi.
  assert (Hg : guard (Some t) d g = true)
    by (apply (guard_delay t d g (idx, r) []); [lia|auto|auto]).
  destruct (simulate_delayed_unique w e g (Some t) d idx r [] Hs Hu Hg)
    as (w' & pre & post & Hrun & Hsplit & _ & Hnew & Hold & _); auto; [lia|].
  exists (length (heap w)), (alert_for t (getitem_mask (Dependencies_eq t) g)),
    (wrap64 (d * Weekly_Cost_k r)), w', pre, post.
  repeat split; auto.
  - apply lookup_ge_None_2. lia.
  - apply valid_ref_lt in Hs. lia.
Qed.

Lemma shift_lands_on_copy_witness :
  exists gantt text cost w' pre post,
    simulate 0%nat (Some "A") 3 (world_of portfolio_AB) = Ok (gantt, text, cost) w' /\
    portfolio_AB = pre ++ (0, project_A) :: post /\
    heap w' !! gantt =
      Some (pre ++ (0, mkRow "A" "San Diego" 0 1814400000000000 10 None "On Track") :: post) /\
    heap (world_of portfolio_AB) !! gantt = None /\ gantt <> 0%nat /\
    heap w' !! 0%nat = Some portfolio_AB.
Proof.
  apply (shift_lands_on_copy (world_of portfolio_AB) 0%nat portfolio_AB "A" 3 0 project_A).
  - reflexivity.
  - exact index_unique_AB.
  - lia.
  - discriminate.
  - reflexivity.
  - simpl. lia.
  - simpl. lia.
Defined.

(** C2 as stated fails: after delaying A by 3 weeks the session's stored
    working copy (reference 0) still holds A with its original finish; the
    shifted finish is in the copy at reference 1 only. *)
Lemma stored_copy_not_shifted :
  let w' := {| heap := [portfolio_AB;
                        [(0, set_Finish 1814400000000000 project_A); (1, project_B)]];
               log := [mask_lookup "Task" "A"; mask_lookup "Dependencies" "A"] |} in
  getitem_mask (Task_eq "A") portfolio_AB = [(0, project_A)] /\
  simulate 0%nat (Some "A") 3 (world_of portfolio_AB) =
    Ok (1%nat, dependency_alert "A" "B", 30) w' /\
  heap w' !! 0%nat = Some [(0, project_A); (1, project_B)] /\
  Finish project_A <> Finish project_A + 3 * 604800000000000.
Proof.
  simpl. split; [reflexivity|]. split; [reflexivity|]. split; [reflexivity|].
  vm_compute. discriminate.
Qed.

(** C4.  With a delay of 0 weeks the simulation is the identity, whatever
    the selected task: the frame it returns equals the working copy in
    every row and field, [cost_impact] is 0, [impact_text] is empty, and
    nothing is looked up; the working copy itself is untouched. *)
Theorem zero_delay_identity (w : World) (e : ref) (g : DataFrame)
    (st : option string) :
  heap w !! e = Some g ->
  exists gantt w',
    simulate e st 0 w = Ok (gantt, "", 0) w' /\
    heap w' !! gantt = Some g /\
    heap w' !! e = Some g /\
    log w' = log w.
Proof.
  intros Hs. eexists _, _.
  split; [apply (simulate_skipped w e g Hs st 0 (guard_zero st g))|].
  simpl. split; [apply lookup_fresh|]. split; [now apply lookup_kept|reflexivity].
Qed.

Lemma zero_delay_identity_witness :
  exists gantt w',
    simulate 0%nat (Some "A") 0 (world_of portfolio_AB) = Ok (gantt, "", 0) w' /\
    heap w' !! gantt = Some portfolio_AB /\
    heap w' !! 0%nat = Some portfolio_AB /\
    log w' = log (world_of portfolio_AB).
Proof.
  apply (zero_delay_identity (world_of portfolio_AB) 0%nat portfolio_AB (Some "A")).
  reflexivity.
Defined.

(** C5, as the code has it.  The working copy is stored and its labels are
    distinct; the delay is 1 to 12 weeks; the task name is not the empty
    string and matches exactly one row; that row's finish is a timestamp
    and is still one after the delay.  Then the frame the simulation
    returns differs from the working copy in exactly one cell: the rows
    before and after the matched row are the same, the matched row's finish
    is later by the delay (604800000000000 nanoseconds a week), and its
    task, site, start, weekly cost, dependency and status are the same. *)
Theorem single_field_mutation (w : World) (e : ref) (g : DataFrame)
    (t : string) (d : Z) idx (r : Row) :
  heap w !! e = Some g -> index_unique g -> 1 <= d <= 12 -> t <> "" ->
  getitem_mask (Task_eq t) g = [(idx, r)] ->
  -9223372036854775807 <= Finish r ->
  Finish r + d * 604800000000000 <= 9223372036854775807 ->
  exists gantt text cost w' pre post r',
    simulate e (Some t) d w = Ok (gantt, text, cost) w' /\
    g = pre ++ (idx, r) :: post /\
    heap w' !! gantt = Some (pre ++ (idx, r') :: post) /\
    Finish r' = Finish r + d * 604800000000000 /\ Finish r' <> Finish r /\
    Task r' = Task r /\ Site r' = Site r /\ Start r' = Start r /\
    Weekly_Cost_k r' = Weekly_Cost_k r /\ Dependencies r' = Dependencies r /\
    Status r' = Status r.
Proof.
  intros Hs Hu Hd Ht Hm Hlo Hhi.
  assert (Hg : guard (Some t) d g = true)
    by (apply (guard_delay t d g (idx, r) []); [lia|auto|auto]).
  destruct (simulate_delayed_unique w e g (Some t) d idx r [] Hs Hu Hg)
    as (w' & pre & post & Hrun & Hsplit & _ & Hnew & _); auto; [lia|].
  exists (length (heap w)), (alert_for t (getitem_mask (Dependencies_eq t) g)),
    (wrap64 (d * Weekly_Cost_k r)), w', pre, post,
    (set_Finish (Finish r + d * 604800000000000) r).
  repeat split; auto. simpl. lia.
Qed.

Lemma single_field_mutation_witness :
  exists gantt text cost w' pre post r',
    simulate 0%nat (Some "A") 3 (world_of portfolio_AB) = Ok (gantt, text, cost) w' /\
    portfolio_AB = pre ++ (0, project_A) :: post /\
    heap w' !! gantt = Some (pre ++ (0, r') :: post) /\
    Finish r' = 0 + 3 * 604800000000000 /\ Finish r' <> 0 /\
    Task r' = "A" /\ Site r' = "San Diego" /\
    Start r' = 0 /\
    Weekly_Cost_k r' = 10 /\
    Dependencies r' = None /\
    Status r' = "On Track".
Proof.
  apply (single_field_mutation (world_of portfolio_AB) 0%nat portfolio_AB "A" 3 0 project_A).
  - reflexivity.
  - exact index_unique_AB.
  - lia.
  - discriminate.
  - reflexivity.
  - simpl. lia.
  - simpl. lia.
Defined.

(** C5 as stated fails for the task named by the empty string: it matches
    exactly one row and the delay is 3 weeks, yet the returned frame equals
    the working copy, so no row's finish differs. *)
Lemma unnamed_task_not_shifted :
  getitem_mask (Task_eq "") portfolio_unnamed = [(0, project_unnamed)] /\
  0 < 3 /\
  exists w',
    simulate 0%nat (Some "") 3 (world_of portfolio_unnamed) = Ok (1%nat, "", 0) w' /\
    heap w' !! 1%nat = Some portfolio_unnamed /\
    ~ (exists pre idx r r' post,
          portfolio_unnamed = pre ++ (idx, r) :: post /\
          heap w' !! 1%nat = Some (pre ++ (idx, r') :: post) /\
          Finish r' <> Finish r).
Proof.
  split; [reflexivity|]. split; [lia|].
  exists {| heap := [portfolio_unnamed; portfolio_unnamed]; log := [] |}.
  split; [reflexivity|]. split; [reflexivity|].
  intros (pre & idx & r & r' & post & Hin & Hout & Hne).
  simpl in Hout. injection Hout as Hout. rewrite Hin in Hout.
  apply List.app_inv_head in Hout. injection Hout as Hr. subst r'.
  now apply Hne.
Qed.

Lemma show_impact_alert (t n : string) (w : World) :
  show_impact (dependency_alert t n) w =
  Ok tt {| heap := heap w; log := log w ++ [st_error (dependency_alert t n)] |}.
Proof. reflexivity. Qed.

(** C6, as the code has it.  The working copy is stored.  When the task
    name matches no row, the simulation is a no-op for every delay: the
    returned frame equals the working copy, [cost_impact] is 0 and
    [impact_text] is empty, which the page shows as the general "no
    conflicts" message (there is no separate "no match" result).  When it
    matches several rows, the delay is positive and at most 12 weeks, the
    selection is not empty, labels are distinct, and the first matching
    row's finish is a timestamp and still one after the delay, the first of
    the matching rows in frame order is treated as the match: its finish is
    moved by the delay (604800000000000 nanoseconds a week) and the delay is
    priced at its weekly cost, in [int64] arithmetic.  No exception is raised
    when the delay is at most 12 weeks and every finish is missing or a
    timestamp that is still one after the delay; in general the only
    exceptions are the overflows of the date arithmetic of line 249, never
    a failed lookup. *)
Theorem unmatched_or_repeated_name (w : World) (e : ref) (g : DataFrame)
    (st : option string) (d : Z) :
  heap w !! e = Some g ->
  (getitem_mask (Task_eq (task_name st)) g = [] ->
     exists gantt w',
       simulate e st d w = Ok (gantt, "", 0) w' /\
       heap w' !! gantt = Some g /\ heap w' !! e = Some g /\
       show_impact "" w' =
         Ok tt {| heap := heap w'; log := log w' ++ [st_success no_conflicts] |}) /\
  (forall t idx r second rest,
     st = Some t -> t <> "" -> 1 <= d <= 12 -> index_unique g ->
     getitem_mask (Task_eq t) g = (idx, r) :: second :: rest ->
     -9223372036854775807 <= Finish r ->
     Finish r + d * 604800000000000 <= 9223372036854775807 ->
     exists gantt text cost w' pre post,
       simulate e st d w = Ok (gantt, text, cost) w' /\
       -9223372036854775808 <= cost <= 9223372036854775807 /\
       (exists k, cost = d * Weekly_Cost_k r + k * 18446744073709551616) /\
       g = pre ++ (idx, r) :: post /\
       getitem_mask (Task_eq t) pre = [] /\
       heap w' !! gantt =
         Some (pre ++ (idx, set_Finish (Finish r + d * 604800000000000) r) :: post) /\
       heap w' !! e = Some g) /\
  (d <= 12 -> finish_headroom d g ->
   exists result w', simulate e st d w = Ok result w') /\
  (forall ex, simulate e st d w = Raise ex ->
     ex = OverflowError \/ ex = OutOfBoundsTimedelta \/ ex = OutOfBoundsDatetime).
Proof.
  intros Hs. split; [|split; [|split]].
  - intros Hn. destruct (guard st d g) eqn:Hg.
    + rewrite (simulate_no_match w e g Hs st d Hg Hn). eexists _, _.
      split; [reflexivity|]. simpl.
      split; [apply lookup_fresh|]. split; [now apply lookup_kept|reflexivity].
    + rewrite (simulate_skipped w e g Hs st d Hg). eexists _, _.
      split; [reflexivity|]. simpl.
      split; [apply lookup_fresh|]. split; [now apply lookup_kept|reflexivity].
  - intros t idx r second rest -> Ht Hd Hu Hm Hlo Hhi.
    assert (Hg : guard (Some t) d g = true)
      by (apply (guard_delay t d g _ _ ltac:(lia) Ht Hm)).
    destruct (simulate_delayed_unique w e g (Some t) d idx r _ Hs Hu Hg
                ltac:(lia) Hm Hlo Hhi)
      as (w' & pre & post & Hrun & Hsplit & Hpre & Hnew & Hold & _).
    eexists _, _, _, w', pre, post. split; [exact Hrun|].
    split; [apply wrap64_range|]. split; [apply wrap64_congruent|]. auto.
  - intros Hd Hh.
    destruct (simulate_headroom w e g st d Hs Hd Hh) as (text & cost & w' & g' & H & _).
    eauto.
  - intros ex Hex.
    destruct (simulate_cases w e g Hs st d)
      as [(text & cost & w' & g' & H & _)|(ex' & H & Hcases)]; [congruence|].
    rewrite H in Hex. now injection Hex as <-.
Qed.

Lemma unmatched_or_repeated_name_witness :
  (exists gantt w',
      simulate 0%nat (Some "nonexistent") 5 (world_of portfolio_AB) = Ok (gantt, "", 0) w' /\
      heap w' !! gantt = Some portfolio_AB /\ heap w' !! 0%nat = Some portfolio_AB /\
      show_impact "" w' =
        Ok tt {| heap := heap w'; log := log w' ++ [st_success "✅ No direct dependency conflicts detected."] |}) /\
  (exists gantt text w',
      simulate 0%nat (Some "A") 3 (world_of portfolio_twins) = Ok (gantt, text, 30) w' /\
      heap w' !! gantt =
        Some [(0, mkRow "A" "San Diego" 0 1814400000000000 10 None "On Track");
              (1, project_A_again)] /\
      heap w' !! 0%nat = Some portfolio_twins) /\
  (exists result w',
      simulate 0%nat (Some "A") 3 (world_of portfolio_twins) = Ok result w').
Proof.
  split; [|split].
  - destruct (unmatched_or_repeated_name (world_of portfolio_AB) 0%nat portfolio_AB
                (Some "nonexistent") 5 eq_refl) as [Hnone _].
    apply Hnone. reflexivity.
  - destruct (unmatched_or_repeated_name (world_of portfolio_twins) 0%nat portfolio_twins
                (Some "A") 3 eq_refl) as (_ & Hmany & _).
    destruct (Hmany "A" 0 project_A (1, project_A_again) [])
      as (gantt & text & cost & w' & pre & post & Hrun & Hrange & _ & Hsplit & Hpre & Hnew & Hold).
    + reflexivity.
    + discriminate.
    + lia.
    + exact index_unique_twins.
    + reflexivity.
    + simpl. lia.
    + simpl. lia.
    + exists gantt, text, w'.
      vm_compute in Hrun. injection Hrun as <- <- <- <-.
      repeat split.
  - destruct (unmatched_or_repeated_name (world_of portfolio_twins) 0%nat portfolio_twins
                (Some "A") 3 eq_refl) as (_ & _ & Hok & _).
    apply Hok; [lia|].
    apply (finish_headroom_le 3 12); [lia|exact finish_headroom_twins].
Defined.

(** C6 as stated fails for a repeated name: "A" matches two rows, and
    delaying "A" by 3 weeks is not a no-op; the first of the two rows is
    shifted and priced. *)
Lemma repeated_name_first_shifted :
  getitem_mask (Task_eq "A") portfolio_twins = [(0, project_A); (1, project_A_again)] /\
  exists w',
    simulate 0%nat (Some "A") 3 (world_of portfolio_twins) = Ok (1%nat, "", 30) w' /\
    heap w' !! 1%nat =
      Some [(0, set_Finish 1814400000000000 project_A); (1, project_A_again)] /\
    heap w' !! 1%nat <> Some portfolio_twins.
Proof.
  split; [reflexivity|].
  exists {| heap := [portfolio_twins;
                     [(0, set_Finish 1814400000000000 project_A); (1, project_A_again)]];
            log := [mask_lookup "Task" "A"; mask_lookup "Dependencies" "A"] |}.
  split; [reflexivity|]. simpl. split; [reflexivity|].
  vm_compute. discriminate.
Qed.

(** Nor is every run free of exceptions: task A finishes at the last
    timestamp, and delaying it by one week raises. *)
Lemma late_finish_raises :
  getitem_mask (Task_eq "A") portfolio_late = [(0, project_A_late)] /\
  Finish project_A_late = 9223372036854775807 /\
  simulate 0%nat (Some "A") 1 (world_of portfolio_late) = Raise OutOfBoundsDatetime.
Proof. repeat split. Qed.

(** ** The cascade banner *)

Lemma append_assoc (a b c : string) : ((a ++ b) ++ c = a ++ b ++ c)%string.
Proof. induction a as [|ch a IH]; simpl; [reflexivity|]. now rewrite IH. Qed.

Lemma alert_names_delayed (t n : string) : names (dependency_alert t n) t.
Proof. unfold names, dependency_alert. eexists _, _. reflexivity. Qed.

Lemma alert_names_impacted (t n : string) : names (dependency_alert t n) n.
Proof.
  unfold names, dependency_alert.
  exists ("🚨 **Dependency Alert:** Delaying '" ++ t ++
          "' will cause a cascading delay to **'")%string, "'**.".
  now rewrite !append_assoc.
Qed.

Lemma Dependencies_eq_true (t : string) (r : Row) :
  Dependencies_eq t r = true <-> Dependencies r = Some t.
Proof.
  unfold Dependencies_eq. destruct (Dependencies r) as [dep|].
  - rewrite String.eqb_eq. split; congruence.
  - split; discriminate.
Qed.

Lemma Dependencies_eq_false (t : string) (r : Row) :
  Dependencies_eq t r = false <-> Dependencies r <> Some t.
Proof.
  rewrite <- Dependencies_eq_true. destruct (Dependencies_eq t r); split; congruence.
Qed.

Lemma Task_column_match (t : string) (g : DataFrame) :
  In t (Task_column g) ->
  exists p rest, getitem_mask (Task_eq t) g = p :: rest.
Proof.
  unfold Task_column. rewrite List.in_map_iff. intros (q & Hq & Hin).
  destruct (getitem_mask (Task_eq t) g) as [|p rest] eqn:Hm; [|eauto].
  exfalso. rewrite getitem_mask_nil in Hm. specialize (Hm q Hin).
  unfold Task_eq in Hm. rewrite Hq, String.eqb_refl in Hm. discriminate.
Qed.

(** The first dependent in frame order heads the selection of line 251. *)
Lemma first_dependent (t : string) (pre post : DataFrame) j (r : Row) :
  (forall p, In p pre -> Dependencies (snd p) <> Some t) ->
  Dependencies r = Some t ->
  getitem_mask (Dependencies_eq t) (pre ++ (j, r) :: post) =
  (j, r) :: getitem_mask (Dependencies_eq t) post.
Proof.
  intros Hpre Hr. rewrite getitem_mask_app.
  assert (Hnil : getitem_mask (Dependencies_eq t) pre = []).
  { apply getitem_mask_nil. intros p Hp. apply Dependencies_eq_false. auto. }
  rewrite Hnil. simpl. apply Dependencies_eq_true in Hr. now rewrite Hr.
Qed.

(** A run that completes returns the alert on the first dependent of the
    selected name when the guard holds and the name is in the frame, and no
    text otherwise. *)
Lemma simulate_text (w : World) (e : ref) (g : DataFrame)
    (st : option string) (d : Z) (gantt : ref) (text : string) (cost : Z) (w' : World) :
  heap w !! e = Some g ->
  simulate e st d w = Ok (gantt, text, cost) w' ->
  text = "" \/
  text = alert_for (task_name st) (getitem_mask (Dependencies_eq (task_name st)) g).
Proof.
  intros Hs Hrun. destruct (guard st d g) eqn:Hg.
  - destruct (getitem_mask (Task_eq (task_name st)) g) as [|[idx r] rest] eqn:Hm.
    + rewrite (simulate_no_match w e g Hs st d Hg Hm) in Hrun.
      injection Hrun as _ <- _ _. now left.
    + rewrite (simulate_matched w e g Hs st d idx r rest Hg Hm) in Hrun.
      destruct (timedelta d) as [ex|delta]; [discriminate|].
      destruct (iadd_Finish idx delta g) as [ex|g']; [discriminate|].
      injection Hrun as _ <- _ _. now right.
  - rewrite (simulate_skipped w e g Hs st d Hg) in Hrun.
    injection Hrun as _ <- _ _. now left.
Qed.

(** C3, as the code has it.  The working copy is stored; the delayed task's
    name is not the empty string and is in the working copy; the delay is
    1 to 12 weeks; every finish in the working copy is missing or a
    timestamp that is still one after the delay.  Then the banner names the
    first row in frame order whose dependency equals that name (only that
    one, whatever follows it), in an alert that names both tasks.  When no
    row depends on the selected name, for any selection, and any delay of
    at most 12 weeks that the finishes leave room for, [impact_text] is
    empty and the page shows the "no conflicts" message. *)
Theorem cascade_first_dependent (w : World) (e : ref) (g : DataFrame)
    (t : string) (d : Z) :
  heap w !! e = Some g -> 1 <= d <= 12 -> t <> "" -> In t (Task_column g) ->
  finish_headroom d g ->
  (forall pre j r post,
      g = pre ++ (j, r) :: post ->
      (forall p, In p pre -> Dependencies (snd p) <> Some t) ->
      Dependencies r = Some t ->
      exists gantt cost w',
        simulate e (Some t) d w = Ok (gantt, dependency_alert t (Task r), cost) w' /\
        names (dependency_alert t (Task r)) t /\
        names (dependency_alert t (Task r)) (Task r) /\
        show_impact (dependency_alert t (Task r)) w' =
          Ok tt {| heap := heap w';
                   log := log w' ++ [st_error (dependency_alert t (Task r))] |}) /\
  (forall st' d',
      d' <= 12 -> finish_headroom d' g ->
      (forall p, In p g -> Dependencies (snd p) <> Some (task_name st')) ->
      exists gantt cost w',
        simulate e st' d' w = Ok (gantt, "", cost) w' /\
        show_impact "" w' =
          Ok tt {| heap := heap w'; log := log w' ++ [st_success no_conflicts] |}).
Proof.
  intros Hs Hd Ht Hin Hh. split.
  - intros pre j r post Hsplit Hpre Hr.
    destruct (Task_column_match t g Hin) as ([idx r0] & rest & Hm).
    assert (Hg : guard (Some t) d g = true)
      by (apply (guard_delay t d g (idx, r0) rest); [lia|auto|auto]).
    destruct (iadd_Finish_headroom idx d g) as [g' Hg']; [lia|exact Hh|].
    rewrite (simulate_delayed w e g Hs (Some t) d idx r0 rest g' Hg Hm);
      [|apply timedelta_slider; lia|exact Hg'].
    simpl. rewrite Hsplit, (first_dependent t pre post j r Hpre Hr). simpl.
    eexists _, _, _. split; [reflexivity|].
    split; [apply alert_names_delayed|]. split; [apply alert_names_impacted|].
    apply show_impact_alert.
  - intros st' d' Hd' Hh' Hnone.
    assert (Hnil : getitem_mask (Dependencies_eq (task_name st')) g = []).
    { apply getitem_mask_nil. intros p Hp. apply Dependencies_eq_false. auto. }
    destruct (simulate_headroom w e g st' d' Hs Hd' Hh')
      as (text & cost & w' & g' & Hrun & _).
    destruct (simulate_text w e g st' d' _ _ _ _ Hs Hrun) as [-> | ->].
    + eexists _, _, _. split; [exact Hrun|reflexivity].
    + rewrite Hnil in Hrun. eexists _, _, _. split; [exact Hrun|reflexivity].
Qed.

Lemma cascade_first_dependent_witness :
  (exists gantt cost w',
      simulate 0%nat (Some "A") 3 (world_of portfolio_ABC) =
        Ok (gantt, "🚨 **Dependency Alert:** Delaying 'A' will cause a cascading delay to **'B'**.", cost) w' /\
      names ("🚨 **Dependency Alert:** Delaying 'A' will cause a cascading delay to **'B'**.") "A" /\
      names ("🚨 **Dependency Alert:** Delaying 'A' will cause a cascading delay to **'B'**.") "B" /\
      show_impact ("🚨 **Dependency Alert:** Delaying 'A' will cause a cascading delay to **'B'**.") w' =
        Ok tt {| heap := heap w';
                 log := log w' ++ [st_error ("🚨 **Dependency Alert:** Delaying 'A' will cause a cascading delay to **'B'**.")] |}) /\
  (exists gantt cost w',
      simulate 0%nat (Some "B") 3 (world_of portfolio_ABC) = Ok (gantt, "", cost) w' /\
      show_impact "" w' =
        Ok tt {| heap := heap w'; log := log w' ++ [st_success "✅ No direct dependency conflicts detected."] |}).
Proof.
  destruct (cascade_first_dependent (world_of portfolio_ABC) 0%nat portfolio_ABC "A" 3)
    as [Hfirst Hnone].
  - reflexivity.
  - lia.
  - discriminate.
  - simpl. left. reflexivity.
  - apply (finish_headroom_le 3 12); [lia|exact finish_headroom_ABC].
  - split.
    + apply (Hfirst [(0, project_A)] 1 project_B [(2, project_C)]).
      * reflexivity.
      * intros p [<-|[]]. discriminate.
      * reflexivity.
    + apply (Hnone (Some "B") 3).
      * lia.
      * apply (finish_headroom_le 3 12); [lia|exact finish_headroom_ABC].
      * intros p [<-|[<-|[<-|[]]]]; discriminate.
Defined.

(** C3 as stated fails for the task named by the empty string: the second
    row depends on it and the delay is 3 weeks, yet no alert is produced. *)
Lemma unnamed_task_no_alert :
  In "" (Task_column portfolio_unnamed) /\
  Dependencies project_after_unnamed = Some "" /\
  0 < 3 /\
  simulate 0%nat (Some "") 3 (world_of portfolio_unnamed) =
    Ok (1%nat, "", 0) {| heap := [portfolio_unnamed; portfolio_unnamed]; log := [] |} /\
  "" <> dependency_alert "" (Task project_after_unnamed).
Proof.
  split; [simpl; auto|]. split; [reflexivity|]. split; [lia|].
  split; [reflexivity|]. discriminate.
Qed.

(** ** Loading and resetting *)

Section Loading.

Variables (w : World) (b : ref) (base : DataFrame).
Hypothesis baseline : heap w !! b = Some base.

Lemma filter_df_by_site_overall :
  filter_df_by_site West_Coast_Overall b w =
  Ok (length (heap w)) {| heap := heap w ++ [base]; log := log w |}.
Proof. unfold filter_df_by_site. simpl. now apply copy_ok. Qed.

Lemma filter_df_by_site_specific (s : string) :
  s <> West_Coast_Overall ->
  filter_df_by_site s b w =
  Ok (length (heap w))
     {| heap := heap w ++ [getitem_mask (Site_eq s) base];
        log := log w ++ [mask_lookup "Site" s] |}.
Proof.
  intros Hs. unfold filter_df_by_site.
  destruct (String.eqb_spec s West_Coast_Overall) as [|_]; [contradiction|].
  simpl. unfold bind. now rewrite (deref_ok w b base baseline).
Qed.

Lemma loaded_overall : loaded West_Coast_Overall b w = Some base.
Proof. unfold loaded. rewrite filter_df_by_site_overall. apply lookup_fresh. Qed.

Lemma loaded_specific (s : string) :
  s <> West_Coast_Overall -> loaded s b w = Some (getitem_mask (Site_eq s) base).
Proof.
  intros Hs. unfold loaded. rewrite (filter_df_by_site_specific s Hs).
  simpl. apply lookup_fresh.
Qed.

(** A load allocates and writes nowhere else. *)
Lemma filter_df_by_site_fresh (s : string) :
  exists out evs,
    filter_df_by_site s b w =
    Ok (length (heap w)) {| heap := heap w ++ [out]; log := log w ++ evs |} /\
    out = (if (s =? West_Coast_Overall)%string then base
           else getitem_mask (Site_eq s) base).
Proof.
  destruct (String.eqb_spec s West_Coast_Overall) as [->|Hs].
  - exists base, []. rewrite List.app_nil_r. split; [apply filter_df_by_site_overall|].
    reflexivity.
  - eexists _, _. split; [now apply filter_df_by_site_specific|reflexivity].
Qed.

Lemma reset_ok :
  reset b w = Ok (length (heap w)) {| heap := heap w ++ [base]; log := log w |}.
Proof. now apply copy_ok. Qed.

End Loading.

Lemma getitem_mask_sublist (mask : Row -> bool) (df : DataFrame) :
  getitem_mask mask df `sublist_of` df.
Proof.
  induction df as [|p df IH]; simpl; [constructor|].
  destruct (mask (snd p)); now constructor.
Qed.

Lemma Site_eq_true (s : string) (r : Row) : Site_eq s r = true <-> Site r = s.
Proof. apply String.eqb_eq. Qed.

(** C8, as the code has it.  The collection is stored.  A load with a
    specific site (any value but the sentinel) returns exactly the rows of
    that site, in frame order: every returned row has the site, and every
    row with the site is returned.  A load with the "West Coast (Overall)"
    sentinel returns all rows.  The loads of two different specific sites
    share no row.  A row whose site is not the sentinel string is returned
    by the load of its site, so the specific-site loads cover exactly the
    rows whose site is not the sentinel: a row whose site is the sentinel
    string is in none of them.  They cover the full collection when no row
    carries the sentinel as its site. *)
Theorem site_filter_partition (w : World) (b : ref) (df : DataFrame) :
  heap w !! b = Some df ->
  (forall s, s <> "West Coast (Overall)" ->
     exists out,
       loaded s b w = Some out /\
       (forall p, In p out <-> In p df /\ Site (snd p) = s) /\
       out `sublist_of` df) /\
  loaded "West Coast (Overall)" b w = Some df /\
  (forall s1 s2 out1 out2,
     s1 <> "West Coast (Overall)" -> s2 <> "West Coast (Overall)" -> s1 <> s2 ->
     loaded s1 b w = Some out1 -> loaded s2 b w = Some out2 ->
     forall p, In p out1 -> ~ In p out2) /\
  (forall p, In p df ->
     (exists s out, s <> "West Coast (Overall)" /\ loaded s b w = Some out /\ In p out)
     <-> Site (snd p) <> "West Coast (Overall)").
Proof.
  intros Hb. split; [|split; [|split]].
  - intros s Hs. exists (getitem_mask (Site_eq s) df).
    split; [now apply loaded_specific|]. split.
    + intros p. rewrite getitem_mask_In, Site_eq_true. reflexivity.
    + apply getitem_mask_sublist.
  - now apply loaded_overall.
  - intros s1 s2 out1 out2 H1 H2 Hne L1 L2 p Hp1 Hp2.
    rewrite (loaded_specific w b df Hb s1 H1) in L1.
    rewrite (loaded_specific w b df Hb s2 H2) in L2.
    injection L1 as <-. injection L2 as <-.
    apply getitem_mask_In in Hp1, Hp2.
    destruct Hp1 as [_ E1], Hp2 as [_ E2].
    apply Site_eq_true in E1, E2. congruence.
  - intros p Hp. split.
    + intros (s & out & Hs & L & Hin).
      rewrite (loaded_specific w b df Hb s Hs) in L. injection L as <-.
      apply getitem_mask_In in Hin. destruct Hin as [_ E].
      apply Site_eq_true in E. congruence.
    + intros E. exists (Site (snd p)), (getitem_mask (Site_eq (Site (snd p))) df).
      split; [exact E|]. split; [now apply loaded_specific|].
      apply getitem_mask_In. split; [exact Hp|]. now apply Site_eq_true.
Qed.

Lemma site_filter_partition_witness :
  (exists out,
      loaded "Seattle" 0%nat (world_of portfolio_ABC) = Some out /\
      (forall p, In p out <-> In p portfolio_ABC /\ Site (snd p) = "Seattle") /\
      out `sublist_of` portfolio_ABC) /\
  loaded "West Coast (Overall)" 0%nat (world_of portfolio_ABC) = Some portfolio_ABC /\
  ~ In (1, project_B) [(0, project_A)] /\
  (exists s out,
      s <> "West Coast (Overall)" /\
      loaded s 0%nat (world_of portfolio_ABC) = Some out /\
      In (1, project_B) out).
Proof.
  destruct (site_filter_partition (world_of portfolio_ABC) 0%nat portfolio_ABC eq_refl)
    as (Hsite & Hall & Hdisjoint & Hcover).
  split; [|split; [|split]].
  - apply (Hsite "Seattle"). discriminate.
  - exact Hall.
  - apply (Hdisjoint "Seattle" "San Diego"
             [(1, project_B); (2, project_C)] [(0, project_A)]);
      try discriminate; try reflexivity.
    simpl. left. reflexivity.
  - apply (Hcover (1, project_B)); [simpl; right; left; reflexivity|discriminate].
Defined.

(** C8 as stated fails for a collection with a row whose site is the
    sentinel string: no load of a specific site returns that row, so the
    per-site loads do not cover the collection; and the load at that row's
    own site value, the sentinel, returns every row, task A among them,
    which the San Diego load returns too. *)
Lemma sentinel_site_row_not_covered :
  In (1, project_W) portfolio_W /\
  Site project_W = "West Coast (Overall)" /\
  (forall s out,
      s <> "West Coast (Overall)" ->
      loaded s 0%nat (world_of portfolio_W) = Some out -> ~ In (1, project_W) out) /\
  loaded (Site project_W) 0%nat (world_of portfolio_W) =
    Some [(0, project_A); (1, project_W)] /\
  loaded "San Diego" 0%nat (world_of portfolio_W) = Some [(0, project_A)].
Proof.
  split; [simpl; auto|]. split; [reflexivity|]. split; [|split; reflexivity].
  intros s out Hs L.
  rewrite (loaded_specific (world_of portfolio_W) 0%nat portfolio_W eq_refl s Hs) in L.
  injection L as <-. intros Hin.
  apply (getitem_mask_In (Site_eq s) portfolio_W) in Hin.
  destruct Hin as [_ E]. apply Site_eq_true in E. simpl in E. congruence.
Qed.

(** C9.  The baseline is stored.  A load and a reset leave every existing
    object as it was, the baseline among them, and return an object that
    did not exist before.  The object a load returns holds the baseline's
    rows for the sentinel, and for a specific site exactly the baseline's
    rows of that site, in frame order; writing into it leaves the baseline
    as it was.  Two resets of the same baseline give two different objects,
    both different from the baseline and both equal to it in content;
    writing into one of them (any write, the finish shift of the simulator
    among them) changes neither the other nor the baseline; the finish
    shift on a label of the baseline, by 0 to 12 weeks that every finish
    leaves room for, does complete. *)
Theorem copies_are_isolated (w : World) (b : ref) (base : DataFrame) :
  heap w !! b = Some base ->
  (forall s, exists r w' out,
     filter_df_by_site s b w = Ok r w' /\
     heap w !! r = None /\ heap w' !! r = Some out /\
     (s = "West Coast (Overall)" -> out = base) /\
     (s <> "West Coast (Overall)" ->
      out `sublist_of` base /\
      forall p, In p out <-> In p base /\ Site (snd p) = s) /\
     (forall r0 d0, heap w !! r0 = Some d0 -> heap w' !! r0 = Some d0) /\
     (forall d', exists w3,
        store r d' w' = Ok tt w3 /\ heap w3 !! r = Some d' /\
        heap w3 !! b = Some base)) /\
  (exists r1 w1 r2 w2,
     reset b w = Ok r1 w1 /\ reset b w1 = Ok r2 w2 /\
     heap w !! r1 = None /\ heap w1 !! r2 = None /\
     r1 <> r2 /\ r1 <> b /\ r2 <> b /\
     heap w2 !! r1 = Some base /\ heap w2 !! r2 = Some base /\
     (forall r0 d0, heap w !! r0 = Some d0 -> heap w2 !! r0 = Some d0) /\
     (forall d', exists w3,
        store r1 d' w2 = Ok tt w3 /\ heap w3 !! r1 = Some d' /\
        heap w3 !! r2 = Some base /\ heap w3 !! b = Some base) /\
     (forall idx weeks w3,
        loc_iadd r1 idx weeks w2 = Ok tt w3 ->
        heap w3 !! r2 = Some base /\ heap w3 !! b = Some base) /\
     (forall idx weeks,
        In idx (map fst base) -> 0 <= weeks <= 12 -> finish_headroom weeks base ->
        exists w3, loc_iadd r1 idx weeks w2 = Ok tt w3)).
Proof.
  intros Hb. pose proof (valid_ref_lt w b base Hb) as Hlt. split.
  - intros s.
    destruct (filter_df_by_site_fresh w b base Hb s) as (out & evs & Hrun & Hout).
    eexists _, _, out. split; [exact Hrun|]. cbn [heap].
    split; [apply lookup_ge_None_2; lia|].
    split; [apply lookup_fresh|].
    split; [|split; [|split]].
    + intros ->. exact Hout.
    + intros Hs. fold West_Coast_Overall in Hs.
      destruct (String.eqb_spec s West_Coast_Overall) as [|_]; [contradiction|].
      subst out. split; [apply getitem_mask_sublist|].
      intros p. rewrite getitem_mask_In, Site_eq_true. reflexivity.
    + intros r0 d0 H0. now apply lookup_kept.
    + intros d'. unfold store. cbn [heap]. rewrite lookup_fresh.
      eexists. split; [reflexivity|]. cbn [heap]. split.
      * apply list_lookup_insert_eq. rewrite List.length_app. simpl. lia.
      * rewrite list_lookup_insert_ne by lia. now apply lookup_kept.
  - set (w1 := {| heap := heap w ++ [base]; log := log w |}).
    set (w2 := {| heap := heap w1 ++ [base]; log := log w1 |}).
    assert (Hb1 : heap w1 !! b = Some base) by (now apply lookup_kept).
    assert (H1 : heap w2 !! length (heap w) = Some base).
    { apply (lookup_kept w1). apply lookup_fresh. }
    assert (H2 : heap w2 !! length (heap w1) = Some base) by apply lookup_fresh.
    assert (Hb2 : heap w2 !! b = Some base) by (now apply (lookup_kept w1)).
    assert (Hlen : length (heap w1) = S (length (heap w))).
    { simpl. rewrite List.length_app. simpl. lia. }
    exists (length (heap w)), w1, (length (heap w1)), w2.
    split; [now apply reset_ok|]. split; [now apply (reset_ok w1)|].
    split; [apply lookup_ge_None_2; lia|].
    split; [apply lookup_ge_None_2; lia|].
    split; [lia|]. split; [lia|]. split; [lia|].
    split; [exact H1|]. split; [exact H2|]. split; [|split; [|split]].
    + intros r0 d0 H0. apply (lookup_kept w1). now apply lookup_kept.
    + intros d'. unfold store. rewrite H1. eexists. split; [reflexivity|].
      cbn [heap]. split; [|split].
      * apply list_lookup_insert_eq. now apply lookup_lt_Some in H1.
      * rewrite list_lookup_insert_ne by lia. exact H2.
      * rewrite list_lookup_insert_ne by lia. exact Hb2.
    + intros idx weeks w3. unfold loc_iadd, bind.
      rewrite (deref_ok w2 _ base H1).
      destruct (existsb _ base); [|discriminate].
      destruct (timedelta weeks) as [ex|delta]; [discriminate|].
      destruct (iadd_Finish idx delta base) as [ex|d']; [discriminate|].
      unfold store. rewrite H1. intros [= <-]. cbn [heap]. split.
      * rewrite list_lookup_insert_ne by lia. exact H2.
      * rewrite list_lookup_insert_ne by lia. exact Hb2.
    + intros idx weeks Hin Hw Hh. unfold loc_iadd, bind.
      rewrite (deref_ok w2 _ base H1).
      apply List.in_map_iff in Hin. destruct Hin as ([j r] & Hj & Hin).
      simpl in Hj. subst j. rewrite (label_present idx r base Hin).
      rewrite timedelta_slider by lia.
      destruct (iadd_Finish_headroom idx weeks base) as [d' ->]; [lia|exact Hh|].
      unfold store. rewrite H1. eauto.
Qed.

Lemma copies_are_isolated_witness :
  (exists r w',
      filter_df_by_site "Seattle" 0%nat (world_of portfolio_AB) = Ok r w' /\
      heap (world_of portfolio_AB) !! r = None /\
      heap w' !! r = Some [(1, mkRow "B" "Seattle" 0 604800000000000 5 (Some "A") "At Risk")] /\
      heap w' !! 0%nat = Some portfolio_AB) /\
  (exists r w',
      filter_df_by_site "West Coast (Overall)" 0%nat (world_of portfolio_AB) = Ok r w' /\
      heap w' !! r = Some portfolio_AB) /\
  (exists r1 w1 r2 w2 w3 w4,
      reset 0%nat (world_of portfolio_AB) = Ok r1 w1 /\ reset 0%nat w1 = Ok r2 w2 /\
      r1 <> r2 /\ r1 <> 0%nat /\ r2 <> 0%nat /\
      heap w2 !! r1 = Some portfolio_AB /\ heap w2 !! r2 = Some portfolio_AB /\
      store r1 [] w2 = Ok tt w3 /\ heap w3 !! r1 = Some [] /\
      heap w3 !! r2 = Some portfolio_AB /\ heap w3 !! 0%nat = Some portfolio_AB /\
      loc_iadd r1 0 3 w2 = Ok tt w4 /\
      heap w4 !! r2 = Some portfolio_AB /\ heap w4 !! 0%nat = Some portfolio_AB).
Proof.
  destruct (copies_are_isolated (world_of portfolio_AB) 0%nat portfolio_AB eq_refl)
    as [Hload Hreset].
  split; [|split].
  - destruct (Hload "Seattle") as (r & w' & out & Hrun & Hnew & Hval & _ & _ & Hkeep & _).
    exists r, w'. split; [exact Hrun|]. split; [exact Hnew|].
    split; [|apply Hkeep; reflexivity].
    vm_compute in Hrun. injection Hrun as <- <-. reflexivity.
  - destruct (Hload "West Coast (Overall)")
      as (r & w' & out & Hrun & _ & Hval & Hall & _).
    exists r, w'. split; [exact Hrun|]. now rewrite Hval, (Hall eq_refl).
  - destruct Hreset as (r1 & w1 & r2 & w2 & Hr1 & Hr2 & _ & _ & Hne & Hb1 & Hb2 &
                        Hc1 & Hc2 & _ & Hstore & Hiso & Hshift).
    destruct (Hstore []) as (w3 & Hw & Hs1 & Hs2 & Hsb).
    destruct (Hshift 0 3) as (w4 & Hw4).
    + simpl. left. reflexivity.
    + lia.
    + apply (finish_headroom_le 3 12); [lia|exact finish_headroom_AB].
    + destruct (Hiso 0 3 w4 Hw4) as [Hi1 Hi2].
      exists r1, w1, r2, w2, w3, w4. repeat split; auto.
Defined.

(** ** One run of the page *)

Lemma show_impact_banner (text : string) (w : World) :
  show_impact text w =
  Ok tt {| heap := heap w; log := log w ++ [impact_banner text] |}.
Proof. unfold show_impact, impact_banner. now destruct (negb (text =? "")%string). Qed.

Lemma row_delayed_refl (g : DataFrame) : Forall2 row_delayed g g.
Proof.
  induction g as [|p g IH]; constructor; [|exact IH].
  unfold row_delayed. repeat split; auto. lia.
Qed.

Lemma rows_delayed (delta : Z) (g g' : DataFrame) :
  0 <= delta ->
  Forall2 (fun p p' =>
             same_but_Finish p p' /\
             (Finish (snd p') = Finish (snd p) \/
              Finish (snd p') = Finish (snd p) + delta)) g g' ->
  Forall2 row_delayed g g'.
Proof.
  intros Hd. induction 1 as [|p p' g g' [Hp Hf] _ IH]; constructor; [|exact IH].
  destruct Hp as (H1 & H2 & H3 & H4 & H5 & H6 & H7).
  unfold row_delayed. repeat split; auto. lia.
Qed.

(** What a simulation does depends on the stored frame only, not on the
    rest of the world: it completes, or line 249 overflows. *)
Lemma simulate_outcome (g : DataFrame) (st : option string) (d : Z) :
  (exists text cost g' sevs,
     (forall w e, heap w !! e = Some g ->
        simulate e st d w =
        Ok (length (heap w), text, cost)
           {| heap := heap w ++ [g']; log := log w ++ sevs |}) /\
     Forall2 row_delayed g g' /\
     (forall idx r rest,
        guard st d g = true ->
        getitem_mask (Task_eq (task_name st)) g = (idx, r) :: rest ->
        iadd_Finish idx (d * 604800000000000) g = inr g' /\
        text = alert_for (task_name st)
                 (getitem_mask (Dependencies_eq (task_name st)) g) /\
        cost = wrap64 (d * Weekly_Cost_k r) /\
        sevs = [mask_lookup "Task" (task_name st);
                mask_lookup "Dependencies" (task_name st)])) \/
  (exists ex,
     (ex = OverflowError \/ ex = OutOfBoundsTimedelta \/ ex = OutOfBoundsDatetime) /\
     forall w e, heap w !! e = Some g -> simulate e st d w = Raise ex).
Proof.
  destruct (guard st d g) eqn:Hg.
  - pose proof (guard_positive st d g Hg) as Hpos.
    destruct (getitem_mask (Task_eq (task_name st)) g) as [|[idx r] rest] eqn:Hm.
    + left. eexists _, _, g, _. split; [|split].
      * intros w e Hs. apply (simulate_no_match w e g Hs st d Hg Hm).
      * apply row_delayed_refl.
      * discriminate.
    + destruct (timedelta_cases d) as [Htd|Htd].
      * destruct (iadd_Finish idx (d * 604800000000000) g) as [ex|g'] eqn:Hg'.
        -- right. exists ex. split; [apply iadd_Finish_inl in Hg'; tauto|].
           intros w e Hs.
           rewrite (simulate_matched w e g Hs st d idx r rest Hg Hm).
           now rewrite Htd, Hg'.
        -- left. eexists _, _, g', _. split; [|split].
           ++ intros w e Hs.
              apply (simulate_delayed w e g Hs st d idx r rest g' Hg Hm Htd Hg').
           ++ apply (rows_delayed (d * 604800000000000)); [lia|].
              now apply (iadd_Finish_rows idx).
           ++ intros idx' r' rest' _ [= <- <- _]. auto.
      * right. exists OverflowError. split; [now left|].
        intros w e Hs.
        rewrite (simulate_matched w e g Hs st d idx r rest Hg Hm).
        now rewrite Htd.
  - left. exists "", 0, g, []. split; [|split].
    + intros w e Hs. rewrite List.app_nil_r.
      apply (simulate_skipped w e g Hs st d Hg).
    + apply row_delayed_refl.
    + discriminate.
Qed.

(** With room for the delay in every finish it completes. *)
Lemma simulate_uniform (g : DataFrame) (st : option string) (d : Z) :
  d <= 12 -> finish_headroom d g ->
  exists text cost g' sevs,
    (forall w e, heap w !! e = Some g ->
       simulate e st d w =
       Ok (length (heap w), text, cost)
          {| heap := heap w ++ [g']; log := log w ++ sevs |}) /\
    Forall2 row_delayed g g' /\
    (forall idx r rest,
       guard st d g = true ->
       getitem_mask (Task_eq (task_name st)) g = (idx, r) :: rest ->
       iadd_Finish idx (d * 604800000000000) g = inr g' /\
       text = alert_for (task_name st)
                (getitem_mask (Dependencies_eq (task_name st)) g) /\
       cost = wrap64 (d * Weekly_Cost_k r) /\
       sevs = [mask_lookup "Task" (task_name st);
               mask_lookup "Dependencies" (task_name st)]).
Proof.
  intros Hd Hh. destruct (simulate_outcome g st d) as [H|(ex & _ & Hraise)]; [exact H|].
  exfalso.
  destruct (simulate_headroom (world_of g) 0%nat g st d eq_refl Hd Hh)
    as (text & cost & w' & g' & Hrun & _).
  rewrite (Hraise (world_of g) 0%nat eq_refl) in Hrun. discriminate.
Qed.

(** The impact column and the chart, once the controls and the simulation
    have answered. *)
Lemma modeler_body_after (w : World) (e : ref) (g : DataFrame) (ui : Widgets)
    (st : option string) (d : Z) (cevs sevs : list Event)
    (text : string) (cost : Z) (g' : DataFrame) :
  heap w !! e = Some g ->
  simulation_controls g ui w = Ok (st, d) {| heap := heap w; log := log w ++ cevs |} ->
  simulate e st d {| heap := heap w; log := log w ++ cevs |} =
    Ok (length (heap w), text, cost)
       {| heap := heap w ++ [g']; log := (log w ++ cevs) ++ sevs |} ->
  modeler_body e ui w =
  Ok tt {| heap := heap w ++ [g'];
           log := log w ++
                  (cevs ++ sevs ++
                   [st_metric "Calculated Budget Impact" cost; impact_banner text]) ++
                  [plotly_chart g'] |}.
Proof.
  intros Hs Hc Hsim. unfold modeler_body.
  unfold bind at 1. rewrite (deref_ok w e g Hs).
  unfold bind at 1. rewrite Hc. cbn [fst snd].
  unfold bind at 1. rewrite Hsim. cbn [fst snd].
  unfold bind at 1. unfold emit at 1. cbn [heap log].
  unfold bind at 1. rewrite show_impact_banner. cbn [heap log].
  unfold bind at 1. unfold deref. cbn [heap log]. rewrite lookup_fresh.
  unfold emit. cbn [heap log]. f_equal. f_equal.
  now rewrite <- !List.app_assoc.
Qed.

(** The page on an empty working copy, whatever the widgets hold. *)
Lemma modeler_body_empty (w : World) (e : ref) (ui : Widgets) :
  heap w !! e = Some [] ->
  modeler_body e ui w =
  Ok tt {| heap := heap w ++ [[]];
           log := log w ++
                  [st_warning no_portfolio_data;
                   st_metric "Calculated Budget Impact" 0;
                   st_success no_conflicts] ++
                  [plotly_chart []] |}.
Proof.
  intros Hs.
  set (wc := {| heap := heap w; log := log w ++ [st_warning no_portfolio_data] |}).
  assert (Hzero : simulate e None 0 wc =
                  Ok (length (heap w), "", 0)
                     {| heap := heap w ++ [[]];
                        log := (log w ++ [st_warning no_portfolio_data]) ++ [] |}).
  { rewrite List.app_nil_r.
    apply (simulate_skipped wc e [] Hs None 0 eq_refl). }
  rewrite (modeler_body_after w e [] ui None 0 _ _ _ _ _ Hs eq_refl Hzero).
  reflexivity.
Qed.






(** C7.  On an empty working copy the selector has no option, the controls
    answer no task and a delay of 0 after the "No portfolio data" warning,
    and the simulation, for any selection and delay handed to it, returns
    at once: no lookup is logged, no existing object is written, and the
    returned frame is empty.  The page shows the warning, a budget impact of
    0, the "no conflicts" message and an empty chart. *)
Theorem empty_portfolio_short_circuit (w : World) (edited : ref) (ui : Widgets) :
  heap w !! edited = Some [] ->
  (forall v, ~ selectable (Task_column []) v) /\
  simulation_controls [] ui w =
    Ok (None, 0) {| heap := heap w; log := log w ++ [st_warning no_portfolio_data] |} /\
  (forall st d,
     simulate edited st d w =
     Ok (length (heap w), "", 0) {| heap := heap w ++ [[]]; log := log w |}) /\
  exists w',
    modeler_body edited ui w = Ok tt w' /\
    heap w' = heap w ++ [[]] /\
    log w' = log w ++ [st_warning no_portfolio_data;
                       st_metric "Calculated Budget Impact" 0;
                       st_success no_conflicts;
                       plotly_chart []] /\
    forallb (fun ev => negb (is_lookup ev)) (drop (length (log w)) (log w')) = true.
Proof.
  intros Hs. split; [|split; [|split]].
  - intros v [].
  - reflexivity.
  - intros st d. apply (simulate_skipped w edited [] Hs).
    unfold guard. simpl. now rewrite andb_false_r.
  - eexists. split; [apply (modeler_body_empty w edited ui Hs)|]. cbn [heap log].
    split; [reflexivity|]. split; [reflexivity|].
    rewrite drop_app_length. reflexivity.
Qed.

Lemma empty_portfolio_short_circuit_witness :
  simulate 0%nat (Some "A") 5 (world_of []) =
  Ok (1%nat, "", 0) {| heap := [[]; []]; log := [] |}.
Proof.
  destruct (empty_portfolio_short_circuit (world_of []) 0%nat (mkWidgets false "A" 5) eq_refl)
    as (_ & _ & Hsim & _).
  exact (Hsim (Some "A") 5).
Defined.

(** ** Running the page again *)









(** ** What the simulation leaves alone *)

(** X1.  The working copy is stored, the delay is at most 12 weeks and
    every finish is missing or a timestamp that is still one after the
    delay.  Then, whatever the selection (duplicate names and duplicate
    labels included), the frame the simulation returns has the rows of the
    working copy in the same order under the same labels; in every row all
    cells but the finish are the same and the finish is not earlier.  No
    row is added, dropped or reordered. *)
Theorem simulate_never_reshapes (w : World) (e : ref) (g : DataFrame)
    (st : option string) (d : Z) :
  heap w !! e = Some g -> d <= 12 -> finish_headroom d g ->
  exists gantt text cost w' g',
    simulate e st d w = Ok (gantt, text, cost) w' /\
    heap w' !! gantt = Some g' /\
    Forall2 row_delayed g g' /\
    length g' = length g /\
    map fst g' = map fst g /\
    Task_column g' = Task_column g.
Proof.
  intros Hs Hd Hh.
  destruct (simulate_uniform g st d Hd Hh) as (text & cost & g' & sevs & Hrun & Hrel & _).
  exists (length (heap w)), text, cost, {| heap := heap w ++ [g']; log := log w ++ sevs |}, g'.
  split; [now apply Hrun|]. split; [apply lookup_fresh|]. split; [exact Hrel|].
  split; [symmetry; now apply Forall2_length in Hrel|].
  clear Hrun Hs. split.
  - induction Hrel as [|p p' g g' Hp _ IH]; simpl; [reflexivity|].
    destruct Hp as (-> & _). rewrite IH; [reflexivity|].
    intros q Hq. apply Hh. now right.
  - unfold Task_column. induction Hrel as [|p p' g g' Hp _ IH]; simpl; [reflexivity|].
    destruct Hp as (_ & -> & _). rewrite IH; [reflexivity|].
    intros q Hq. apply Hh. now right.
Qed.

Lemma simulate_never_reshapes_witness :
  exists gantt text cost w',
    simulate 0%nat (Some "A") 3 (world_of portfolio_twins) = Ok (gantt, text, cost) w' /\
    heap w' !! gantt =
      Some [(0, mkRow "A" "San Diego" 0 1814400000000000 10 None "On Track");
            (1, project_A_again)].
Proof.
  destruct (simulate_never_reshapes (world_of portfolio_twins) 0%nat portfolio_twins
              (Some "A") 3) as (gantt & text & cost & w' & g' & Hrun & Hg' & _).
  - reflexivity.
  - lia.
  - apply (finish_headroom_le 3 12); [lia|exact finish_headroom_twins].
  - exists gantt, text, cost, w'. split; [exact Hrun|].
    vm_compute in Hrun. injection Hrun as <- _ _ <-. reflexivity.
Defined.

(** X2.  The simulation keeps the schedule well formed.  The working copy
    is stored, the delay is at most 12 weeks and every finish is missing or
    a timestamp that is still one after the delay.  If every row of the
    working copy has a start that is a timestamp and no later than its
    finish, so has every row of the frame the simulation returns, for any
    selection. *)
Theorem simulate_keeps_start_before_finish (w : World) (e : ref) (g : DataFrame)
    (st : option string) (d : Z) :
  heap w !! e = Some g -> d <= 12 -> finish_headroom d g ->
  (forall p, In p g -> -9223372036854775807 <= Start (snd p) <= Finish (snd p)) ->
  exists gantt text cost w' g',
    simulate e st d w = Ok (gantt, text, cost) w' /\
    heap w' !! gantt = Some g' /\
    (forall p', In p' g' ->
       -9223372036854775807 <= Start (snd p') <= Finish (snd p')).
Proof.
  intros Hs Hd Hh Hwf.
  destruct (simulate_uniform g st d Hd Hh) as (text & cost & g' & sevs & Hrun & Hrel & _).
  exists (length (heap w)), text, cost, {| heap := heap w ++ [g']; log := log w ++ sevs |}, g'.
  split; [now apply Hrun|]. split; [apply lookup_fresh|].
  clear Hrun Hs Hh. induction Hrel as [|p p' g g' Hp _ IH]; intros q; simpl; [intros []|].
  intros [<-|Hq].
  - destruct Hp as (_ & _ & _ & Hstart & _ & _ & _ & Hfin).
    specialize (Hwf p (or_introl eq_refl)). lia.
  - apply IH; [|exact Hq]. intros p0 Hp0. apply Hwf. now right.
Qed.

Lemma simulate_keeps_start_before_finish_witness :
  exists gantt text cost w' g',
    simulate 0%nat (Some "A") 3 (world_of portfolio_AB) = Ok (gantt, text, cost) w' /\
    heap w' !! gantt = Some g' /\
    In (0, mkRow "A" "San Diego" 0 1814400000000000 10 None "On Track") g' /\
    (forall p', In p' g' ->
       -9223372036854775807 <= Start (snd p') <= Finish (snd p')).
Proof.
  destruct (simulate_keeps_start_before_finish (world_of portfolio_AB) 0%nat portfolio_AB
              (Some "A") 3) as (gantt & text & cost & w' & g' & Hrun & Hg' & Hwf).
  - reflexivity.
  - lia.
  - apply (finish_headroom_le 3 12); [lia|exact finish_headroom_AB].
  - intros p [<-|[<-|[]]]; vm_compute; split; discriminate.
  - exists gantt, text, cost, w', g'. split; [exact Hrun|]. split; [exact Hg'|].
    split; [|exact Hwf].
    vm_compute in Hrun. injection Hrun as <- _ _ <-.
    vm_compute in Hg'. injection Hg' as <-. left. reflexivity.
Defined.

(** ** The page, whatever the session holds *)













(** ** What the impact column shows *)



(** ** Portfolio health *)

Lemma portfolio_health_run (w : World) (b : ref) (base : DataFrame) (s : string) :
  heap w !! b = Some base ->
  exists F w',
    loaded s b w = Some F /\
    portfolio_health s b w =
    Ok {| metric_label := "📈 Portfolio Health";
          metric_value :=
            (str (total_count F - at_risk_count F) ++ " / " ++
             str (total_count F) ++ " Projects")%string;
          metric_delta :=
            if 0 <? at_risk_count F
            then ("-" ++ str (at_risk_count F) ++ " At Risk")%string
            else "All On Track";
          metric_delta_color := if 0 <? at_risk_count F then "inverse" else "normal" |}
       w' /\
    (forall r d, heap w !! r = Some d -> heap w' !! r = Some d).
Proof.
  intros Hb. destruct (filter_df_by_site_fresh w b base Hb s) as (F & evs & Hrun & _).
  exists F. eexists. split; [|split].
  - unfold loaded. rewrite Hrun. apply lookup_fresh.
  - unfold portfolio_health. unfold bind at 1. rewrite Hrun.
    unfold bind at 1. unfold deref. cbn [heap]. rewrite lookup_fresh.
    reflexivity.
  - intros r d H. cbn [heap]. now apply lookup_kept.
Qed.

Lemma at_risk_count_split (F : DataFrame) :
  at_risk_count F +
  shape0 (getitem_mask (fun r => negb (Status_eq "At Risk" r)) F) = shape0 F.
Proof.
  unfold at_risk_count, shape0, getitem_mask.
  rewrite <- Nat2Z.inj_add. f_equal.
  apply (List.filter_length (fun p => Status_eq "At Risk" (snd p)) F).
Qed.

Lemma at_risk_count_pos (F : DataFrame) :
  0 < at_risk_count F <-> exists p, In p F /\ Status (snd p) = "At Risk".
Proof.
  unfold at_risk_count, shape0.
  destruct (getitem_mask (Status_eq "At Risk") F) as [|q rest] eqn:E.
  - split; [simpl; lia|]. intros (p & Hp & Hst). exfalso.
    rewrite getitem_mask_nil in E. specialize (E p Hp).
    unfold Status_eq in E. rewrite Hst in E. discriminate.
  - split; [|intros _; simpl; lia]. intros _. exists q.
    assert (Hq : In q (getitem_mask (Status_eq "At Risk") F)) by (rewrite E; now left).
    apply getitem_mask_In in Hq. destruct Hq as [Hin Hst].
    split; [exact Hin|]. now apply String.eqb_eq.
Qed.

(** X8.  For a site without projects the portfolio health indicator counts
    one project: it reads "1 / 1 Projects" with "All On Track" in the
    normal colour, not "0 / 0". *)
Theorem portfolio_health_empty_site (w : World) (b : ref) (base : DataFrame)
    (s : string) :
  heap w !! b = Some base -> loaded s b w = Some [] ->
  exists w',
    portfolio_health s b w =
    Ok {| metric_label := "📈 Portfolio Health";
          metric_value := "1 / 1 Projects";
          metric_delta := "All On Track";
          metric_delta_color := "normal" |} w'.
Proof.
  intros Hb Hempty.
  destruct (portfolio_health_run w b base s Hb) as (F & w' & Hload & Hrun & _).
  rewrite Hempty in Hload. injection Hload as <-.
  exists w'. exact Hrun.
Qed.

Lemma portfolio_health_empty_site_witness :
  exists w',
    portfolio_health "Boston" 0%nat (world_of portfolio_ABC) =
    Ok {| metric_label := "📈 Portfolio Health";
          metric_value := "1 / 1 Projects";
          metric_delta := "All On Track";
          metric_delta_color := "normal" |} w'.
Proof.
  apply (portfolio_health_empty_site (world_of portfolio_ABC) 0%nat portfolio_ABC "Boston");
    reflexivity.
Defined.

(** X9.  For a site with projects the indicator reads "h / n Projects",
    where n is the number of the site's rows and h the number of those
    whose status is not "At Risk"; h is between 0 and n.  The delta is
    shown in the inverse colour exactly when some row of the site is at
    risk, and reads "All On Track" otherwise.  The run writes to no
    existing object. *)
Theorem portfolio_health_counts (w : World) (b : ref) (base F : DataFrame)
    (s : string) :
  heap w !! b = Some base -> loaded s b w = Some F -> F <> [] ->
  exists m w' h,
    portfolio_health s b w = Ok m w' /\
    h = shape0 (getitem_mask (fun r => negb (Status_eq "At Risk" r)) F) /\
    0 <= h <= shape0 F /\
    metric_value m = (str h ++ " / " ++ str (shape0 F) ++ " Projects")%string /\
    (metric_delta_color m = "inverse" <->
       exists p, In p F /\ Status (snd p) = "At Risk") /\
    ((forall p, In p F -> Status (snd p) <> "At Risk") ->
       metric_delta m = "All On Track" /\ metric_delta_color m = "normal") /\
    (forall r d, heap w !! r = Some d -> heap w' !! r = Some d).
Proof.
  intros Hb Hload Hne.
  destruct (portfolio_health_run w b base s Hb) as (F' & w' & Hload' & Hrun & Hkeep).
  rewrite Hload in Hload'. injection Hload' as <-.
  pose proof (at_risk_count_split F) as Hsplit.
  assert (Htot : total_count F = shape0 F).
  { unfold total_count. destruct (Z.ltb_spec 0 (shape0 F)) as [|Hle]; [reflexivity|].
    exfalso. unfold shape0 in Hle. destruct F; [congruence|simpl in Hle; lia]. }
  assert (Hrisk : 0 <= at_risk_count F) by (unfold at_risk_count, shape0; lia).
  eexists _, w', _. split; [exact Hrun|]. split; [reflexivity|].
  cbn [metric_value metric_delta metric_delta_color].
  split; [|split; [|split; [|split]]].
  - unfold shape0 in *. lia.
  - rewrite Htot. do 2 f_equal. lia.
  - rewrite <- at_risk_count_pos.
    destruct (Z.ltb_spec 0 (at_risk_count F)); split; auto; try discriminate; lia.
  - intros Hnone.
    destruct (Z.ltb_spec 0 (at_risk_count F)) as [Hpos|_]; [|auto].
    apply at_risk_count_pos in Hpos. destruct Hpos as (p & Hp & Hst).
    now destruct (Hnone p Hp).
  - exact Hkeep.
Qed.

Lemma portfolio_health_counts_witness :
  exists m w' h,
    portfolio_health "Seattle" 0%nat (world_of portfolio_ABC) = Ok m w' /\
    h = shape0 (getitem_mask (fun r => negb (Status_eq "At Risk" r))
                  [(1, project_B); (2, project_C)]) /\
    0 <= h <= shape0 [(1, project_B); (2, project_C)] /\
    metric_value m =
      (str h ++ " / " ++ str (shape0 [(1, project_B); (2, project_C)]) ++ " Projects")%string /\
    (metric_delta_color m = "inverse" <->
       exists p, In p [(1, project_B); (2, project_C)] /\ Status (snd p) = "At Risk") /\
    ((forall p, In p [(1, project_B); (2, project_C)] -> Status (snd p) <> "At Risk") ->
       metric_delta m = "All On Track" /\ metric_delta_color m = "normal") /\
    (forall r d, heap (world_of portfolio_ABC) !! r = Some d -> heap w' !! r = Some d).
Proof.
  apply (portfolio_health_counts (world_of portfolio_ABC) 0%nat portfolio_ABC
           [(1, project_B); (2, project_C)] "Seattle").
  - reflexivity.
  - reflexivity.
  - discriminate.
Defined.

Lemma filter_two_sites (mask : Row -> bool) (s1 s2 : string) (base : DataFrame) :
  s1 <> s2 ->
  (forall p, In p base -> Site (snd p) = s1 \/ Site (snd p) = s2) ->
  (length (getitem_mask mask base) =
   length (getitem_mask mask (getitem_mask (Site_eq s1) base)) +
   length (getitem_mask mask (getitem_mask (Site_eq s2) base)))%nat.
Proof.
  intros Hne. induction base as [|p base IH]; intros Hsites; [reflexivity|].
  assert (IH' := IH (fun q Hq => Hsites q (or_intror Hq))).
  assert (Hp := Hsites p (or_introl eq_refl)).
  unfold getitem_mask, Site_eq in *. simpl.
  destruct (String.eqb_spec (Site (snd p)) s1) as [E1|N1];
    destruct (String.eqb_spec (Site (snd p)) s2) as [E2|N2].
  - congruence.
  - simpl. destruct (mask (snd p)); simpl; lia.
  - simpl. destruct (mask (snd p)); simpl; lia.
  - destruct Hp; contradiction.
Qed.

(** X10.  When every project is at one of two sites, the site views add up
    to the overall view: the number of rows and the at-risk count of the
    overall load are the sums of those of the two site loads.  The project
    total the indicator shows adds up as well when both sites have projects
    (a site without projects is counted as one). *)
Theorem site_views_add_up (w : World) (b : ref) (base F1 F2 : DataFrame)
    (s1 s2 : string) :
  heap w !! b = Some base ->
  s1 <> West_Coast_Overall -> s2 <> West_Coast_Overall -> s1 <> s2 ->
  (forall p, In p base -> Site (snd p) = s1 \/ Site (snd p) = s2) ->
  loaded s1 b w = Some F1 -> loaded s2 b w = Some F2 ->
  loaded West_Coast_Overall b w = Some base /\
  shape0 base = shape0 F1 + shape0 F2 /\
  at_risk_count base = at_risk_count F1 + at_risk_count F2 /\
  (F1 <> [] -> F2 <> [] -> total_count base = total_count F1 + total_count F2) /\
  (F2 = [] -> F1 <> [] -> total_count F1 + total_count F2 = total_count base + 1).
Proof.
  intros Hb H1 H2 Hne Hsites L1 L2.
  rewrite (loaded_specific w b base Hb s1 H1) in L1. injection L1 as <-.
  rewrite (loaded_specific w b base Hb s2 H2) in L2. injection L2 as <-.
  split; [now apply loaded_overall|].
  pose proof (filter_two_sites (fun _ => true) s1 s2 base Hne Hsites) as Hlen.
  pose proof (filter_two_sites (Status_eq "At Risk") s1 s2 base Hne Hsites) as Hrisk.
  assert (Hall : forall l : DataFrame, getitem_mask (fun _ => true) l = l).
  { intros l. unfold getitem_mask. induction l as [|q l IHl]; simpl; [reflexivity|].
    now rewrite IHl. }
  rewrite !Hall in Hlen.
  assert (Hshape : shape0 base =
                   shape0 (getitem_mask (Site_eq s1) base) +
                   shape0 (getitem_mask (Site_eq s2) base)).
  { unfold shape0. lia. }
  split; [exact Hshape|]. split; [unfold at_risk_count, shape0; lia|].
  assert (Htot : forall l : DataFrame, l <> [] -> total_count l = shape0 l).
  { intros l Hl. unfold total_count.
    destruct (Z.ltb_spec 0 (shape0 l)) as [|Hle]; [reflexivity|].
    exfalso. unfold shape0 in Hle. destruct l; [congruence|simpl in Hle; lia]. }
  split.
  - intros N1 N2. rewrite (Htot _ N1), (Htot _ N2). rewrite Htot; [exact Hshape|].
    intros E. rewrite E in N1. now apply N1.
  - intros E2 N1. rewrite E2 in *. rewrite (Htot _ N1).
    assert (Hbase : base <> []).
    { intros E. rewrite E in N1. now apply N1. }
    rewrite (Htot _ Hbase). unfold total_count, shape0 in *. simpl in *. lia.
Qed.

Lemma site_views_add_up_witness :
  loaded West_Coast_Overall 0%nat (world_of portfolio_ABC) = Some portfolio_ABC /\
  shape0 portfolio_ABC = shape0 [(0, project_A)] + shape0 [(1, project_B); (2, project_C)] /\
  at_risk_count portfolio_ABC =
    at_risk_count [(0, project_A)] + at_risk_count [(1, project_B); (2, project_C)] /\
  ([(0, project_A)] <> [] -> [(1, project_B); (2, project_C)] <> [] ->
     total_count portfolio_ABC =
       total_count [(0, project_A)] + total_count [(1, project_B); (2, project_C)]) /\
  ([(1, project_B); (2, project_C)] = [] -> [(0, project_A)] <> [] ->
     total_count [(0, project_A)] + total_count [(1, project_B); (2, project_C)] =
       total_count portfolio_ABC + 1).
Proof.
  apply (site_views_add_up (world_of portfolio_ABC) 0%nat portfolio_ABC
           [(0, project_A)] [(1, project_B); (2, project_C)] "San Diego" "Seattle").
  - reflexivity.
  - discriminate.
  - discriminate.
  - discriminate.
  - intros p [<-|[<-|[<-|[]]]]; simpl; auto.
  - reflexivity.
  - reflexivity.
Defined.

(** ** The action center *)

Lemma pending_from_spec (k i : nat) (items : list ActionItem) :
  In i (pending_from k items) ->
  exists item, (k <= i)%nat /\ items !! (i - k)%nat = Some item /\
               item_status item = "Pending".
Proof.
  revert k. induction items as [|it items IH]; simpl; intros k; [intros []|].
  destruct (String.eqb_spec (item_status it) "Pending") as [E|_].
  - intros [<-|H].
    + exists it. rewrite Nat.sub_diag. auto.
    + destruct (IH _ H) as (item & Hle & Hl & Hst). exists item.
      split; [lia|]. split; [|exact Hst].
      replace (i - k)%nat with (S (i - S k)) by lia. exact Hl.
  - intros H. destruct (IH _ H) as (item & Hle & Hl & Hst). exists item.
    split; [lia|]. split; [|exact Hst].
    replace (i - k)%nat with (S (i - S k)) by lia. exact Hl.
Qed.

Lemma pending_items_spec (i : nat) (items : list ActionItem) :
  In i (pending_items items) ->
  exists item, items !! i = Some item /\ item_status item = "Pending".
Proof.
  intros H. destruct (pending_from_spec 0 i items H) as (item & _ & Hl & Hst).
  rewrite Nat.sub_0_r in Hl. eauto.
Qed.

Lemma pending_from_complete (k i : nat) (items : list ActionItem) (item : ActionItem) :
  items !! i = Some item -> item_status item = "Pending" ->
  In (k + i)%nat (pending_from k items).
Proof.
  revert k i. induction items as [|it items IH]; intros k i; [discriminate|].
  destruct i as [|i]; simpl.
  - intros [= ->] ->. simpl. left. lia.
  - intros Hl Hst. replace (k + S i)%nat with (S k + i)%nat by lia.
    destruct (item_status it =? "Pending")%string; [right|]; now apply IH.
Qed.

Lemma review_pending_cons (clicked : string -> bool) (i : nat) (rest : list nat)
    (items : list ActionItem) (shown : list SidebarEvent) :
  review_pending clicked (i :: rest) items shown =
  match items !! i with
  | None => review_pending clicked rest items shown
  | Some item =>
      let shown1 :=
        shown ++ [sb_expander ("📌 " ++ item_type item ++ ": " ++ item_id item)%string;
                  sb_write (item_description item)] in
      if clicked ("app_" ++ item_id item)%string then
        (<[i := set_status "Approved" item]> items,
         shown1 ++ [sb_success ("Approved: " ++ item_id item)%string],
         Rerun)
      else if clicked ("rej_" ++ item_id item)%string then
        (<[i := set_status "Rejected" item]> items,
         shown1 ++ [sb_warning ("Rejected: " ++ item_id item)%string],
         Rerun)
      else review_pending clicked rest items shown1
  end.
Proof. reflexivity. Qed.

(** The loop ends in one of two ways. *)
Lemma review_pending_outcome (clicked : string -> bool) (pending : list nat)
    (items : list ActionItem) (shown : list SidebarEvent) :
  (exists shown', review_pending clicked pending items shown = (items, shown', Completed)) \/
  (exists i item v shown',
      In i pending /\ items !! i = Some item /\
      (v = "Approved" \/ v = "Rejected") /\
      review_pending clicked pending items shown =
        (<[i := set_status v item]> items, shown', Rerun)).
Proof.
  revert shown. induction pending as [|j rest IH]; intros shown.
  - left. simpl. eauto.
  - rewrite review_pending_cons. destruct (items !! j) as [it|] eqn:Hj; cbv zeta.
    + destruct (clicked ("app_" ++ item_id it)%string).
      * right. exists j, it, "Approved". eexists.
        split; [now left|]. split; [exact Hj|]. split; [now left|reflexivity].
      * destruct (clicked ("rej_" ++ item_id it)%string).
        -- right. exists j, it, "Rejected". eexists.
           split; [now left|]. split; [exact Hj|]. split; [now right|reflexivity].
        -- destruct (IH (shown ++ [sb_expander ("📌 " ++ item_type it ++ ": " ++ item_id it)%string;
                                   sb_write (item_description it)]))
             as [(shown' & H)|(i & item & v & shown' & Hin & Hi & Hv & H)].
           ++ left. eauto.
           ++ right. exists i, item, v, shown'.
              split; [now right|]. auto.
    + destruct (IH shown) as [(shown' & H)|(i & item & v & shown' & Hin & Hi & Hv & H)].
      * left. eauto.
      * right. exists i, item, v, shown'.
        split; [now right|]. auto.
Qed.

(** One run of the loop takes at most one decision. *)
Lemma action_center_outcome (clicked : string -> bool)
    (action_items : list ActionItem) :
  (exists shown, action_center clicked action_items = (action_items, shown, Completed)) \/
  (exists i item v shown,
      action_items !! i = Some item /\ item_status item = "Pending" /\
      (v = "Approved" \/ v = "Rejected") /\
      action_center clicked action_items =
        (<[i := set_status v item]> action_items, shown, Rerun) /\
      length (<[i := set_status v item]> action_items) = length action_items /\
      (forall j, j <> i ->
         <[i := set_status v item]> action_items !! j = action_items !! j) /\
      exists item',
        <[i := set_status v item]> action_items !! i = Some item' /\
        item_id item' = item_id item /\ item_type item' = item_type item /\
        item_description item' = item_description item /\ item_status item' = v).
Proof.
  unfold action_center.
  destruct (pending_items action_items) as [|p0 rest] eqn:Hp.
  - left. eauto.
  - destruct (review_pending_outcome clicked (p0 :: rest) action_items
                [sb_header ("Action Center (" ++
                            str (Z.of_nat (length (p0 :: rest))) ++ ")")%string])
      as [(shown' & H)|(i & item & v & shown' & Hin & Hi & Hv & H)].
    + left. eauto.
    + right. exists i, item, v, shown'.
      rewrite <- Hp in Hin. destruct (pending_items_spec i _ Hin) as (it & Hit & Hst).
      rewrite Hi in Hit. injection Hit as <-.
      split; [exact Hi|]. split; [exact Hst|]. split; [exact Hv|].
      split; [exact H|]. split; [apply length_insert|]. split.
      * intros j Hj. now apply list_lookup_insert_ne.
      * exists (set_status v item). split; [|simpl; auto].
        apply list_lookup_insert_eq. now apply lookup_lt_Some in Hi.
Qed.

(** X11.  One run of the action center takes at most one decision, when
    the ids of the pending items are pairwise distinct (Streamlit refuses a
    second button under a key the run has used already, so with a repeated
    id a run may end in that refusal instead).  Either the run reaches its
    end and leaves every item as it was, or it stops in a rerun after
    changing the status of exactly one item, which was pending, to
    "Approved" or "Rejected"; the item's id, type and description, every
    other item, and the length and order of the list are unchanged. *)
Theorem action_center_one_decision (clicked : string -> bool)
    (action_items : list ActionItem) :
  List.NoDup
    (map item_id
       (List.filter (fun item => String.eqb (item_status item) "Pending") action_items)) ->
  (exists shown, action_center clicked action_items = (action_items, shown, Completed)) \/
  (exists i item v shown,
      action_items !! i = Some item /\ item_status item = "Pending" /\
      (v = "Approved" \/ v = "Rejected") /\
      action_center clicked action_items =
        (<[i := set_status v item]> action_items, shown, Rerun) /\
      length (<[i := set_status v item]> action_items) = length action_items /\
      (forall j, j <> i ->
         <[i := set_status v item]> action_items !! j = action_items !! j) /\
      exists item',
        <[i := set_status v item]> action_items !! i = Some item' /\
        item_id item' = item_id item /\ item_type item' = item_type item /\
        item_description item' = item_description item /\ item_status item' = v).
Proof. intros _. apply action_center_outcome. Qed.

Lemma action_center_one_decision_witness :
  action_center (fun key => String.eqb key "app_WO-2")
    [mkItem "WO-1" "Work Order" "Replace pump" "Pending";
     mkItem "WO-2" "Work Order" "Calibrate" "Pending"] =
  ([mkItem "WO-1" "Work Order" "Replace pump" "Pending";
    mkItem "WO-2" "Work Order" "Calibrate" "Approved"],
   [sb_header "Action Center (2)";
    sb_expander "📌 Work Order: WO-1"; sb_write "Replace pump";
    sb_expander "📌 Work Order: WO-2"; sb_write "Calibrate";
    sb_success "Approved: WO-2"],
   Rerun).
Proof.
  destruct (action_center_one_decision (fun key => String.eqb key "app_WO-2")
              [mkItem "WO-1" "Work Order" "Replace pump" "Pending";
               mkItem "WO-2" "Work Order" "Calibrate" "Pending"])
    as [(shown & H)|(i & item & v & shown & _ & _ & _ & H & _)].
  - simpl. repeat (apply List.NoDup_cons; [simpl; intuition discriminate|]).
    apply List.NoDup_nil.
  - vm_compute in H. discriminate H.
  - vm_compute. reflexivity.
Defined.

Lemma pending_count_filter (k : nat) (items : list ActionItem) :
  length (pending_from k items) =
  length (List.filter (fun it => String.eqb (item_status it) "Pending") items).
Proof.
  revert k. induction items as [|it items IH]; intros k; simpl; [reflexivity|].
  destruct (item_status it =? "Pending")%string; simpl; now rewrite IH.
Qed.

Lemma pending_count_decided (items : list ActionItem) (i : nat) (item : ActionItem)
    (v : string) :
  items !! i = Some item -> item_status item = "Pending" -> v <> "Pending" ->
  S (pending_count (<[i := set_status v item]> items)) = pending_count items.
Proof.
  unfold pending_count, pending_items. rewrite !pending_count_filter.
  revert i. induction items as [|it items IH]; intros i; [discriminate|].
  destruct i as [|i]; simpl.
  - intros [= ->] Hst Hv. rewrite Hst. simpl.
    destruct (String.eqb_spec v "Pending") as [|_]; [contradiction|reflexivity].
  - intros Hi Hst Hv. destruct (item_status it =? "Pending")%string; simpl;
      now rewrite (IH i Hi Hst Hv).
Qed.




Lemma review_pending_decides (clicked : string -> bool) (i : nat) (item : ActionItem)
    (items : list ActionItem) :
  items !! i = Some item ->
  clicked ("app_" ++ item_id item)%string = true \/
  clicked ("rej_" ++ item_id item)%string = true ->
  (forall j other, j <> i -> items !! j = Some other ->
     item_status other = "Pending" ->
     clicked ("app_" ++ item_id other)%string = false /\
     clicked ("rej_" ++ item_id other)%string = false) ->
  forall pending shown,
    In i pending ->
    (forall j, In j pending -> exists other,
       items !! j = Some other /\ item_status other = "Pending") ->
    exists shown',
      review_pending clicked pending items shown =
      (<[i := set_status
                (if clicked ("app_" ++ item_id item)%string then "Approved" else "Rejected")
                item]> items,
       shown' ++ [if clicked ("app_" ++ item_id item)%string
                  then sb_success ("Approved: " ++ item_id item)%string
                  else sb_warning ("Rejected: " ++ item_id item)%string],
       Rerun).
Proof.
  intros Hi Hclick Hothers pending.
  induction pending as [|j rest IH]; intros shown Hin Hpend; [destruct Hin|].
  rewrite review_pending_cons. destruct (Nat.eq_dec j i) as [->|Hne].
  - rewrite Hi. cbv zeta. destruct (clicked ("app_" ++ item_id item)%string) eqn:Happ.
    + eexists. reflexivity.
    + destruct Hclick as [|Hrej]; [discriminate|]. rewrite Hrej. eexists. reflexivity.
  - destruct (Hpend j (or_introl eq_refl)) as (other & Hj & Hst).
    rewrite Hj. cbv zeta. destruct (Hothers j other Hne Hj Hst) as [-> ->].
    apply IH.
    + destruct Hin as [|]; [congruence|assumption].
    + intros j' Hj'. apply Hpend. now right.
Qed.

(** X13.  When a button of one pending item is clicked and no button of
    any other pending item is, the run decides that item: its status
    becomes "Approved" if its approve button is clicked (also when its
    reject button is reported clicked with it) and "Rejected" otherwise,
    the confirmation for it is the last thing shown, the script stops in a
    rerun, and one item fewer is pending. *)
Theorem clicked_item_is_decided (clicked : string -> bool)
    (action_items : list ActionItem) (i : nat) (item : ActionItem) :
  action_items !! i = Some item -> item_status item = "Pending" ->
  clicked ("app_" ++ item_id item)%string = true \/
  clicked ("rej_" ++ item_id item)%string = true ->
  (forall j other, j <> i -> action_items !! j = Some other ->
     item_status other = "Pending" ->
     clicked ("app_" ++ item_id other)%string = false /\
     clicked ("rej_" ++ item_id other)%string = false) ->
  exists v shown,
    v = (if clicked ("app_" ++ item_id item)%string then "Approved" else "Rejected") /\
    action_center clicked action_items =
      (<[i := set_status v item]> action_items,
       shown ++ [if clicked ("app_" ++ item_id item)%string
                 then sb_success ("Approved: " ++ item_id item)%string
                 else sb_warning ("Rejected: " ++ item_id item)%string],
       Rerun) /\
    S (pending_count (<[i := set_status v item]> action_items)) =
      pending_count action_items.
Proof.
  intros Hi Hst Hclick Hothers.
  assert (Hin : In i (pending_items action_items)).
  { apply (pending_from_complete 0 i action_items item Hi Hst). }
  unfold action_center.
  destruct (pending_items action_items) as [|p0 rest] eqn:Hp; [destruct Hin|].
  destruct (review_pending_decides clicked i item action_items Hi Hclick Hothers
              (p0 :: rest)
              [sb_header ("Action Center (" ++
                          str (Z.of_nat (length (p0 :: rest))) ++ ")")%string] Hin)
    as (shown' & H).
  { intros j Hj. rewrite <- Hp in Hj. now apply pending_items_spec. }
  eexists _, shown'. split; [reflexivity|]. split; [exact H|].
  apply pending_count_decided; [exact Hi|exact Hst|].
  destruct (clicked ("app_" ++ item_id item)%string); discriminate.
Qed.

Lemma clicked_item_is_decided_witness :
  let items := [mkItem "WO-1" "Work Order" "Replace pump" "Pending";
                mkItem "WO-2" "Work Order" "Calibrate" "Pending"] in
  let clicked := fun key => String.eqb key "rej_WO-2" in
  exists v shown,
    v = (if clicked "app_WO-2" then "Approved" else "Rejected") /\
    action_center clicked items =
      (<[1%nat := set_status v (mkItem "WO-2" "Work Order" "Calibrate" "Pending")]> items,
       shown ++ [if clicked "app_WO-2"
                 then sb_success "Approved: WO-2"
                 else sb_warning "Rejected: WO-2"],
       Rerun) /\
    S (pending_count
         (<[1%nat := set_status v (mkItem "WO-2" "Work Order" "Calibrate" "Pending")]> items)) =
      pending_count items.
Proof.
  apply (clicked_item_is_decided (fun key => String.eqb key "rej_WO-2")
           [mkItem "WO-1" "Work Order" "Replace pump" "Pending";
            mkItem "WO-2" "Work Order" "Calibrate" "Pending"] 1%nat
           (mkItem "WO-2" "Work Order" "Calibrate" "Pending")).
  - reflexivity.
  - reflexivity.
  - right. reflexivity.
  - intros j other Hj Hl Hst. destruct j as [|[|j]]; [|contradiction|discriminate].
    injection Hl as <-. split; reflexivity.
Defined.

(** ** The resource allocation heatmap *)

Lemma Series_unique_In (m : string) (values : list string) :
  In m (Series_unique values) <-> In m values.
Proof.
  induction values as [|v rest IH]; simpl; [reflexivity|].
  rewrite List.filter_In, IH.
  destruct (String.eqb_spec m v) as [->|Hne]; simpl.
  - split; auto.
  - split.
    + intros [E|[H _]]; auto.
    + intros [E|H]; [now left|right; auto].
Qed.

Lemma Series_unique_NoDup (values : list string) : List.NoDup (Series_unique values).
Proof.
  induction values as [|v rest IH]; simpl; [apply List.NoDup_nil|].
  apply List.NoDup_cons.
  - rewrite List.filter_In. intros [_ H]. rewrite String.eqb_refl in H. discriminate.
  - now apply List.NoDup_filter.
Qed.

Lemma in_index_true (m : string) (a : Allocation) :
  in_index m a = true <-> exists row, In row (alloc_rows a) /\ fst row = m.
Proof.
  unfold in_index. rewrite List.existsb_exists.
  split; intros (row & Hin & H); exists row; (split; [exact Hin|]);
    now apply String.eqb_eq.
Qed.

Lemma loc_rows_present (labels : list string) (rows : list (string * list Z)) :
  (forall l, In l labels -> exists row, In row rows /\ fst row = l) ->
  exists out,
    loc_rows labels rows = Some out /\
    (forall row, In row out <-> In row rows /\ In (fst row) labels).
Proof.
  induction labels as [|l rest IH]; intros Hall; simpl.
  - exists []. split; [reflexivity|]. intros row. simpl. tauto.
  - destruct IH as (more & Hmore & Hspec).
    { intros l' Hl'. apply Hall. now right. }
    destruct (Hall l (or_introl eq_refl)) as (r0 & Hr0 & Hl0).
    destruct (List.filter (fun row => String.eqb (fst row) l) rows) as [|f found] eqn:Hf.
    + exfalso. assert (Hin : In r0 (List.filter (fun row => String.eqb (fst row) l) rows)).
      { apply List.filter_In. split; [exact Hr0|]. now apply String.eqb_eq. }
      rewrite Hf in Hin. destruct Hin.
    + rewrite Hmore. exists ((f :: found) ++ more). split; [reflexivity|].
      intros row. rewrite List.in_app_iff, <- Hf, List.filter_In, Hspec, String.eqb_eq.
      simpl. split.
      * intros [[Hin E]|[Hin Hl]]; auto.
      * intros [Hin [E|Hl]]; auto.
Qed.

Lemma loc_rows_missing (labels : list string) (rows : list (string * list Z)) (l : string) :
  In l labels -> (forall row, In row rows -> fst row <> l) ->
  loc_rows labels rows = None.
Proof.
  induction labels as [|l0 rest IH]; intros Hin Hno; [destruct Hin|]. simpl.
  destruct (List.filter (fun row => String.eqb (fst row) l0) rows) as [|f found] eqn:Hf;
    [reflexivity|].
  destruct Hin as [->|Hin].
  - exfalso. assert (Hf' : In f (List.filter (fun row => String.eqb (fst row) l) rows))
      by (rewrite Hf; now left).
    apply List.filter_In in Hf'. destruct Hf' as [Hin' E].
    apply String.eqb_eq in E. now apply (Hno f).
  - now rewrite (IH Hin Hno).
Qed.

Lemma site_allocation_specific (s : string) (team : list TeamRow) (alloc : Allocation) :
  s <> West_Coast_Overall ->
  exists a,
    site_allocation s team alloc = Some a /\
    (forall row, In row (alloc_rows a) <->
       In row (alloc_rows alloc) /\
       exists t, In t team /\ team_Site t = s /\ Team_Member t = fst row) /\
    (alloc_rows a <> [] -> alloc_columns a = alloc_columns alloc).
Proof.
  intros Hs. unfold site_allocation.
  destruct (String.eqb_spec s West_Coast_Overall) as [|_]; [contradiction|].
  cbn [negb].
  set (members := List.filter (fun member => in_index member alloc)
                    (Series_unique (map Team_Member
                       (List.filter (fun t => String.eqb (team_Site t) s) team)))).
  assert (Hmem : forall m, In m members <->
                   (exists row, In row (alloc_rows alloc) /\ fst row = m) /\
                   exists t, In t team /\ team_Site t = s /\ Team_Member t = m).
  { intros m. unfold members.
    rewrite List.filter_In, Series_unique_In, List.in_map_iff, in_index_true.
    split.
    - intros [(t & Ht & Hin) Hrow]. split; [exact Hrow|].
      apply List.filter_In in Hin. destruct Hin as [Hin E].
      apply String.eqb_eq in E. eauto.
    - intros [Hrow (t & Hin & E & Ht)]. split; [|exact Hrow].
      exists t. split; [exact Ht|]. apply List.filter_In. split; [exact Hin|].
      now apply String.eqb_eq. }
  destruct members as [|m0 rest] eqn:Hmembers.
  - exists DataFrame_empty. split; [reflexivity|]. split.
    + intros row. simpl. split; [intros []|].
      intros [Hin (t & Ht & Hsite & Hm)].
      apply (Hmem (fst row)). split; eauto.
    + intros H. now destruct H.
  - destruct (loc_rows_present (m0 :: rest) (alloc_rows alloc)) as (out & Hout & Hspec).
    { intros l Hl. now apply Hmem in Hl. }
    unfold loc_labels. rewrite Hout. eexists. split; [reflexivity|].
    cbn [alloc_rows alloc_columns]. split; [|reflexivity].
    intros row. rewrite Hspec, Hmem. split.
    + intros [Hin [_ Ht]]. auto.
    + intros [Hin Ht]. split; [exact Hin|]. split; [eauto|exact Ht].
Qed.

(** X14.  The heatmap filter never fails on a member without allocation
    data: for every site, team frame and allocation frame a frame is
    returned ([loc] is only asked for members that are in the index),
    although [loc] itself raises [KeyError] for a label the index does not
    have.  With the "West Coast (Overall)" sentinel the allocation frame is
    returned as it is. *)
Theorem site_allocation_never_fails (s : string) (team : list TeamRow)
    (alloc : Allocation) :
  (exists a, site_allocation s team alloc = Some a) /\
  site_allocation West_Coast_Overall team alloc = Some alloc /\
  (forall labels l, In l labels ->
     (forall row, In row (alloc_rows alloc) -> fst row <> l) ->
     loc_labels labels alloc = None).
Proof.
  split; [|split].
  - destruct (String.eqb_spec s West_Coast_Overall) as [->|Hs].
    + exists alloc. reflexivity.
    + destruct (site_allocation_specific s team alloc Hs) as (a & H & _). eauto.
  - reflexivity.
  - intros labels l Hin Hno. unfold loc_labels.
    now rewrite (loc_rows_missing labels (alloc_rows alloc) l Hin Hno).
Qed.

(** X15.  For a specific site the heatmap holds exactly the allocation rows
    of that site's team members: a row is kept if and only if it is a row
    of the allocation frame whose label is the ['Team Member'] of some team
    row with that site.  The columns are kept whenever a row is. *)
Theorem site_allocation_exact (s : string) (team : list TeamRow)
    (alloc a : Allocation) :
  s <> West_Coast_Overall ->
  site_allocation s team alloc = Some a ->
  (forall row, In row (alloc_rows a) <->
     In row (alloc_rows alloc) /\
     exists t, In t team /\ team_Site t = s /\ Team_Member t = fst row) /\
  (alloc_rows a <> [] -> alloc_columns a = alloc_columns alloc).
Proof.
  intros Hs Hrun.
  destruct (site_allocation_specific s team alloc Hs) as (a' & H & Hspec).
  rewrite Hrun in H. injection H as <-. exact Hspec.
Qed.

Lemma site_allocation_exact_witness :
  let team := [mkTeamRow "Seattle" "Ana"; mkTeamRow "San Diego" "Bo";
               mkTeamRow "Seattle" "Ana"; mkTeamRow "Seattle" "Cy"] in
  let alloc := mkAllocation ["Jan"; "Feb"] [("Bo", [50; 60]); ("Ana", [90; 100])] in
  let a := mkAllocation ["Jan"; "Feb"] [("Ana", [90; 100])] in
  (forall row, In row (alloc_rows a) <->
     In row (alloc_rows alloc) /\
     exists t, In t team /\ team_Site t = "Seattle" /\ Team_Member t = fst row) /\
  (alloc_rows a <> [] -> alloc_columns a = alloc_columns alloc).
Proof.
  apply (site_allocation_exact "Seattle"
           [mkTeamRow "Seattle" "Ana"; mkTeamRow "San Diego" "Bo";
            mkTeamRow "Seattle" "Ana"; mkTeamRow "Seattle" "Cy"]
           (mkAllocation ["Jan"; "Feb"] [("Bo", [50; 60]); ("Ana", [90; 100])])
           (mkAllocation ["Jan"; "Feb"] [("Ana", [90; 100])])).
  - discriminate.
  - reflexivity.
Defined.

Lemma loc_rows_NoDup (labels : list string) (rows out : list (string * list Z)) :
  List.NoDup labels -> List.NoDup (map fst rows) ->
  loc_rows labels rows = Some out -> List.NoDup (map fst out).
Proof.
  intros Hl Hr. revert out. induction labels as [|l rest IH]; intros out; simpl.
  - intros [= <-]. apply List.NoDup_nil.
  - inversion Hl as [|? ? Hnot Hrest]; subst.
    destruct (List.filter (fun row => String.eqb (fst row) l) rows) as [|f found] eqn:Hf;
      [discriminate|].
    destruct (loc_rows rest rows) as [more|] eqn:Hmore; [|discriminate].
    intros [= <-]. change (f :: found ++ more) with ((f :: found) ++ more).
    rewrite List.map_app. apply List.NoDup_app.
    + rewrite <- Hf. clear -Hr. induction rows as [|[k v] rows IHr]; simpl; [apply List.NoDup_nil|].
      simpl in Hr. inversion Hr as [|? ? Hk Hrows]; subst.
      destruct (String.eqb k l); simpl; [apply List.NoDup_cons|]; auto.
      intros Hin. apply Hk. apply List.in_map_iff in Hin.
      destruct Hin as (row & E & Hin). apply List.filter_In in Hin.
      apply List.in_map_iff. exists row. tauto.
    + now apply IH.
    + intros k Hk1 Hk2. apply Hnot.
      apply List.in_map_iff in Hk1. destruct Hk1 as (r1 & E1 & H1).
      rewrite <- Hf in H1. apply List.filter_In in H1. destruct H1 as [_ E].
      apply String.eqb_eq in E. subst k. rewrite E in Hk2. clear -Hk2 Hmore.
      revert more Hmore Hk2. induction rest as [|l' rest IHr]; intros more; simpl.
      * intros [= <-] [].
      * destruct (List.filter (fun row => String.eqb (fst row) l') rows) as [|f' found'] eqn:Hf';
          [discriminate|].
        destruct (loc_rows rest rows) as [more'|]; [|discriminate].
        intros [= <-]. change (f' :: found' ++ more') with ((f' :: found') ++ more').
        rewrite List.map_app, List.in_app_iff. intros [H|H].
        -- left. apply List.in_map_iff in H. destruct H as (r2 & E2 & H2).
           rewrite <- Hf' in H2. apply List.filter_In in H2. destruct H2 as [_ E'].
           apply String.eqb_eq in E'. congruence.
        -- right. now apply (IHr more').
Qed.

(** X16.  The filter does not duplicate rows: when the labels of the
    allocation frame are distinct, so are the labels of the heatmap, however
    many team rows a member has (the member list is made unique before
    [loc]). *)
Theorem site_allocation_no_duplicates (s : string) (team : list TeamRow)
    (alloc a : Allocation) :
  List.NoDup (map fst (alloc_rows alloc)) ->
  site_allocation s team alloc = Some a ->
  List.NoDup (map fst (alloc_rows a)).
Proof.
  intros Hu. unfold site_allocation.
  destruct (negb (s =? West_Coast_Overall)%string); [|now intros [= <-]].
  set (members := List.filter (fun member => in_index member alloc)
                    (Series_unique (map Team_Member
                       (List.filter (fun t => String.eqb (team_Site t) s) team)))).
  assert (Hm : List.NoDup members).
  { unfold members. apply List.NoDup_filter. apply Series_unique_NoDup. }
  destruct members as [|m0 rest] eqn:E.
  - intros [= <-]. apply List.NoDup_nil.
  - unfold loc_labels.
    destruct (loc_rows (m0 :: rest) (alloc_rows alloc)) as [out|] eqn:Hout; [|discriminate].
    intros [= <-]. cbn [alloc_rows].
    now apply (loc_rows_NoDup (m0 :: rest) (alloc_rows alloc) out).
Qed.

Lemma site_allocation_no_duplicates_witness :
  List.NoDup (map fst (alloc_rows (mkAllocation ["Jan"; "Feb"] [("Ana", [90; 100])]))).
Proof.
  apply (site_allocation_no_duplicates "Seattle"
           [mkTeamRow "Seattle" "Ana"; mkTeamRow "San Diego" "Bo";
            mkTeamRow "Seattle" "Ana"; mkTeamRow "Seattle" "Cy"]
           (mkAllocation ["Jan"; "Feb"] [("Bo", [50; 60]); ("Ana", [90; 100])])).
  - simpl. repeat (apply List.NoDup_cons; [simpl; intuition discriminate|]).
    apply List.NoDup_nil.
  - reflexivity.
Defined.

(** X17.  When no team member of the selected site has a row in the
    allocation frame (in particular for a site without team members), the
    page draws no heatmap and shows the "No resource allocation data"
    warning naming the site; when some member has one and the frame has
    columns, a heatmap is drawn. *)
Theorem allocation_warning_when_no_member (s : string) (team : list TeamRow)
    (alloc : Allocation) :
  s <> West_Coast_Overall ->
  exists a,
    site_allocation s team alloc = Some a /\
    ((forall t row, In t team -> team_Site t = s -> In row (alloc_rows alloc) ->
        Team_Member t <> fst row) ->
     allocation_view s a =
       no_allocation_warning
         ("No resource allocation data available for members at the " ++ s ++ " site.")%string) /\
    ((exists t row, In t team /\ team_Site t = s /\ In row (alloc_rows alloc) /\
        Team_Member t = fst row) ->
     alloc_columns alloc <> [] ->
     exists z x y, allocation_view s a = heatmap z x y /\ x = alloc_columns alloc).
Proof.
  intros Hs. destruct (site_allocation_specific s team alloc Hs) as (a & Hrun & Hrows & Hcols).
  exists a. split; [exact Hrun|]. split.
  - intros Hnone. unfold allocation_view, alloc_empty.
    destruct (alloc_rows a) as [|row rest] eqn:E; [reflexivity|].
    exfalso. assert (Hin : In row (row :: rest)) by (now left).
    apply Hrows in Hin. destruct Hin as [Hin (t & Ht & Hsite & Hm)].
    now apply (Hnone t row).
  - intros (t & row & Ht & Hsite & Hin & Hm) Hne.
    assert (Hrow : In row (alloc_rows a)) by (apply Hrows; eauto).
    unfold allocation_view, alloc_empty.
    destruct (alloc_rows a) as [|r0 rest] eqn:E; [destruct Hrow|].
    rewrite Hcols by discriminate.
    destruct (alloc_columns alloc) as [|c cols]; [congruence|].
    eexists _, _, _. split; reflexivity.
Qed.

Lemma allocation_warning_when_no_member_witness :
  exists a,
    site_allocation "Seattle" [mkTeamRow "San Diego" "Bo"]
      (mkAllocation ["Jan"] [("Bo", [50])]) = Some a /\
    allocation_view "Seattle" a =
      no_allocation_warning
        "No resource allocation data available for members at the Seattle site.".
Proof.
  destruct (allocation_warning_when_no_member "Seattle" [mkTeamRow "San Diego" "Bo"]
              (mkAllocation ["Jan"] [("Bo", [50])])) as (a & Hrun & Hwarn & _).
  - discriminate.
  - exists a. split; [exact Hrun|]. apply Hwarn.
    intros t row [<-|[]] Hsite. discriminate.
Defined.

(** ** The working copy over a whole session *)




Lemma site_allocation_never_fails_witness :
  (exists a,
      site_allocation "Seattle" [mkTeamRow "Seattle" "Ana"; mkTeamRow "Seattle" "Cy"]
        (mkAllocation ["Jan"] [("Ana", [90])]) = Some a) /\
  loc_labels ["Ana"; "Cy"] (mkAllocation ["Jan"] [("Ana", [90])]) = None.
Proof.
  destruct (site_allocation_never_fails "Seattle"
              [mkTeamRow "Seattle" "Ana"; mkTeamRow "Seattle" "Cy"]
              (mkAllocation ["Jan"] [("Ana", [90])])) as (Hok & _ & Hkey).
  split; [exact Hok|].
  apply (Hkey ["Ana"; "Cy"] "Cy").
  - simpl. auto.
  - intros row [<-|[]]. discriminate.
Defined.
